(** * pywebgen: the processor pipeline and the command-line front end

    A shallow embedding of [pyweb/processors.py] and [pyweb/pywebgen.py].
    Python byte strings are [string]; dictionaries are [gmap]; the
    interpreter state a call can observe or change (importable modules,
    the file system, standard output) is the record [World], threaded
    through a small state-and-exception monad. *)

From Stdlib Require Import ZArith Ascii String.
From stdpp Require Import base option list strings gmap pretty.

Local Open Scope Z_scope.

(** ** Python string methods used by the program *)

Module PyStr.

(** [s.startswith(p)] *)
Definition startswith (s p : string) : bool := String.prefix p s.

(** [s.endswith(p)]: some tail of [s] is [p]. *)
Fixpoint endswith (s p : string) : bool :=
  match s with
  | EmptyString => String.eqb p EmptyString
  | String _ r => String.eqb s p || endswith r p
  end.

(** [s.rfind(c)] for a one-character [c]: the highest index holding [c],
    or [-1]. [i] is the index of the head of [s], [last] the best so far. *)
Fixpoint rfind_from (c : ascii) (s : string) (i last : Z) : Z :=
  match s with
  | EmptyString => last
  | String d r => rfind_from c r (i + 1) (if Ascii.eqb d c then i else last)
  end.

Definition rfind (s : string) (c : ascii) : Z := rfind_from c s 0 (-1).

(** [s[n:]] for [n >= 0] *)
Fixpoint slice_from (n : nat) (s : string) : string :=
  match n, s with
  | O, _ => s
  | S _, EmptyString => EmptyString
  | S k, String _ r => slice_from k r
  end.

(** [s.replace(old, new)] for a non-empty [old]: scan left to right; at a
    match emit [new] and skip the rest of the matched text. *)
Fixpoint replace_from (old new : string) (skip : nat) (s : string) : string :=
  match s with
  | EmptyString => EmptyString
  | String c r =>
      match skip with
      | S k => replace_from old new k r
      | O =>
          if String.prefix old s
          then new +:+ replace_from old new (String.length old - 1) r
          else String c (replace_from old new 0 r)
      end
  end.

(** [s.replace('', new)] puts [new] before every character and at the end. *)
Fixpoint replace_empty (new : string) (s : string) : string :=
  match s with
  | EmptyString => new
  | String c r => new +:+ String c (replace_empty new r)
  end.

Definition replace (s old new : string) : string :=
  match old with
  | EmptyString => replace_empty new s
  | String _ _ => replace_from old new 0 s
  end.

(** [old in s]: [old] occurs somewhere in [s]. *)
Fixpoint occurs (old s : string) : bool :=
  String.prefix old s ||
  match s with
  | EmptyString => false
  | String _ r => occurs old r
  end.

(** [c in s] for a character *)
Fixpoint contains (c : ascii) (s : string) : bool :=
  match s with
  | EmptyString => false
  | String d r => Ascii.eqb d c || contains c r
  end.

End PyStr.

(** ** [os.path] (POSIX flavour) *)

Module os_path.

(** [posixpath.basename]: [i = p.rfind('/') + 1; return p[i:]] *)
Definition basename (p : string) : string :=
  let i := PyStr.rfind p "/"%char + 1 in
  PyStr.slice_from (Z.to_nat i) p.

(** [posixpath.join] of two components *)
Definition join (a b : string) : string :=
  if PyStr.startswith b "/" then b
  else if String.eqb a EmptyString || PyStr.endswith a "/" then a +:+ b
  else a +:+ "/" +:+ b.

End os_path.

(** ** Values, exceptions, the world *)

(** The Python values the modelled code returns or stores in a context. *)
Inductive value :=
  | VNone
  | VBool (b : bool)
  | VInt (z : Z)
  | VStr (s : string).


Inductive exn :=
  | UnknownProcessor (name : string)       (* processors.UnknownProcessor *)
  | MissingPythonModule (name : string)    (* error.MissingPythonModule *)
  | ImportError (module : string)
  | NotImplementedError
  | AttributeError (attr : string)
  | KeyError (key : string)
  | IOError (path : string)
  | ShutilError (src dst : string)         (* shutil.Error: same file *)
  | SystemExit (code : Z)
  | LibraryError (msg : string).           (* raised inside a collaborator *)

(** What [print] and [parser.print_help()] send to standard output. *)
Inductive output :=
  | Line (s : string)
  | Help (usage : string).

Record World := {
  modules : gset string;          (* modules an [import] can find *)
  files : gmap string string;     (* regular files: path to content *)
  dirs : gset string;             (* existing directories *)
  stdout : list output;
}.

Inductive outcome (A : Type) :=
  | Return (a : A) (w : World)
  | Raise (e : exn) (w : World).
Arguments Return {A} a w.
Arguments Raise {A} e w.

Definition M (A : Type) : Type := World -> outcome A.

Definition ret {A} (a : A) : M A := fun w => Return a w.
Definition raise {A} (e : exn) : M A := fun w => Raise e w.
Definition bind {A B} (m : M A) (k : A -> M B) : M B :=
  fun w => match m w with
           | Return a w' => k a w'
           | Raise e w' => Raise e w'
           end.

Notation "'do' x <- m ; k" := (bind m (fun x => k))
  (at level 10, x name, m at level 100, k at level 200,
   format "'[v' 'do'  x  <-  m ; '/' k ']'").
Notation "'exec' m ; k" := (bind m (fun _ => k))
  (at level 10, m at level 100, k at level 200,
   format "'[v' 'exec'  m ; '/' k ']'").

Definition print (s : string) : M unit :=
  fun w => Return tt {| modules := modules w; files := files w;
                        dirs := dirs w; stdout := stdout w ++ [Line s] |}.

(** [import m]: a module that can be found loads; one that cannot is an
    [ImportError]. *)
Definition import (m : string) : M unit :=
  fun w => if decide (m ∈ modules w) then Return tt w
           else Raise (ImportError m) w.

(** [try: body / except ImportError: handler] *)
Definition try_except_ImportError {A} (body handler : M A) : M A :=
  fun w => match body w with
           | Raise (ImportError _) w' => handler w'
           | r => r
           end.

(** ** processors.py *)

Inductive ProcessorClass :=
  | HtmlJinjaProcessor
  | YamlJinjaProcessor
  | CssYamlProcessor
  | IgnoreProtectedFileProcessor
  | CopyFileProcessor.

(** [jinja2.Environment(loader=FileSystemLoader(root))] and its filters. *)
Record Environment := {
  loader : value;
  filters : list string;
}.

(** A processor object: its class and the attributes [StartProcessing]
    sets ([None] while the attribute does not exist). *)
Record Processor := {
  cls : ProcessorClass;
  _ctx : option (gmap string value);
  _env : option Environment;
}.

Definition EqDecision_ProcessorClass : EqDecision ProcessorClass.
Proof. solve_decision. Defined.
#[global] Existing Instance EqDecision_ProcessorClass.

(** *** Constructors *)

(** [HtmlJinjaProcessor.__init__] *)
Definition HtmlJinja_init : M unit :=
  try_except_ImportError
    (exec import "jinja2"; import "jinja2_markdown.filters")
    (raise (MissingPythonModule "jinja2")).

(** [YamlJinjaProcessor.__init__] *)
Definition YamlJinja_init : M unit :=
  exec HtmlJinja_init;
  try_except_ImportError (import "yaml") (raise (MissingPythonModule "yaml")).

(** [CssYamlProcessor.__init__] *)
Definition CssYaml_init : M unit := import "cssyaml".

Definition __init__ (c : ProcessorClass) : M unit :=
  match c with
  | HtmlJinjaProcessor => HtmlJinja_init
  | YamlJinjaProcessor => YamlJinja_init
  | CssYamlProcessor => CssYaml_init
  | IgnoreProtectedFileProcessor | CopyFileProcessor => ret tt
  end.

(** The object a constructor hands back once [__init__] has returned. *)
Definition fresh (c : ProcessorClass) : Processor :=
  {| cls := c; _ctx := None; _env := None |}.

(** [C()] *)
Definition new (c : ProcessorClass) : M Processor :=
  exec __init__ c; ret (fresh c).

(** *** The base class [_Processor]

    [CanProcessFile] and [ProcessFile] are abstract, and every class below
    overrides both; [StartProcessing] and [EndProcessing] do nothing;
    [OutputFileRename] is the identity. *)

Definition Processor_CanProcessFile (filename : string) : M bool :=
  raise NotImplementedError.

Definition Processor_ProcessFile (in_path out_path : string) : M value :=
  raise NotImplementedError.

Definition Processor_OutputFileRename (in_path : string) : string := in_path.

(** *** [CanProcessFile] *)

Definition Ignore_CanProcessFile (filename : string) : bool :=
  let base := os_path.basename filename in
  if PyStr.startswith base "_" || PyStr.startswith base ".#"
     || PyStr.endswith base "~"
  then true
  else false.

Definition CanProcessFile (self : Processor) (filename : string) : bool :=
  match cls self with
  | HtmlJinjaProcessor => PyStr.endswith filename ".html"
  | YamlJinjaProcessor => PyStr.endswith filename ".yaml"
  | CssYamlProcessor => PyStr.endswith filename ".css"
  | IgnoreProtectedFileProcessor => Ignore_CanProcessFile filename
  | CopyFileProcessor => true
  end.

(** *** [OutputFileRename] *)

(** [_Processor.OutputFileRename] is inherited by every class but one. *)
Definition YamlJinja_OutputFileRename (in_path : string) : string :=
  PyStr.replace in_path ".yaml" ".html".

Definition OutputFileRename (self : Processor) (in_path : string) : string :=
  match cls self with
  | YamlJinjaProcessor => YamlJinja_OutputFileRename in_path
  | _ => Processor_OutputFileRename in_path
  end.

(** *** The registry and [GetProcessors] *)

Definition PROCESSORS : gmap string ProcessorClass :=
  <["YamlJinja" := YamlJinjaProcessor]>
  (<["HtmlJinja" := HtmlJinjaProcessor]>
  (<["CssYaml" := CssYamlProcessor]> ∅)).

(** [PROCESSORS.keys()]: the order is the dictionary's own. *)
Definition ListProcessors : list string := (map_to_list PROCESSORS).*1.

(** The [for] loop of [GetProcessors]; [processor_objs] is the list
    built so far. *)
Fixpoint GetProcessors_loop (processors : list string)
    (processor_objs : list Processor) : M (list Processor) :=
  match processors with
  | [] => ret processor_objs
  | processor :: rest =>
      match PROCESSORS !! processor with
      | None => raise (UnknownProcessor processor)
      | Some C =>
          do obj <- new C;
          GetProcessors_loop rest (processor_objs ++ [obj])
      end
  end.

Definition GetProcessors (processors : list string) : M (list Processor) :=
  do processor_objs <- GetProcessors_loop processors [];
  do first <- new IgnoreProtectedFileProcessor;
  do last <- new CopyFileProcessor;
  ret ([first] ++ processor_objs ++ [last]).

(** *** Collaborators

    [util], [cssyaml] and the third-party engines are not part of the two
    modelled files: the processors are parametric in what they do. Each may
    read or change the world and may raise. *)

Record Collaborators := {
  Template : Type;
  (* util.ReadFileContent(path) *)
  ReadFileContent : string -> M string;
  (* util.WriteFileContent(path, content) *)
  WriteFileContent : string -> string -> M unit;
  (* env.from_string(source) *)
  from_string : Environment -> string -> M Template;
  (* env.get_template(name) *)
  get_template : Environment -> value -> M Template;
  (* template.render, the mapping passed as keyword arguments *)
  render : Template -> gmap string value -> M string;
  (* yaml.load_all(text), run to its end: one mapping per document *)
  load_all : string -> M (list (gmap string value));
  (* cssyaml.GenerateCss(text, timestamp) *)
  GenerateCss : string -> value -> M string;
}.

(** [shutil.copy(src, dst)]: a directory [dst] stands for the file of the
    same base name inside it; an unreadable source is an [IOError], copying
    a file onto itself a [shutil.Error]. Permissions, missing parent
    directories and full disks are outside the model. *)
Definition shutil_copy (src dst : string) : M unit :=
  fun w =>
    let dst := if decide (dst ∈ dirs w)
               then os_path.join dst (os_path.basename src) else dst in
    match files w !! src with
    | None => Raise (IOError src) w
    | Some content =>
        if decide (src = dst) then Raise (ShutilError src dst) w
        else Return tt {| modules := modules w;
                          files := <[dst := content]> (files w);
                          dirs := dirs w; stdout := stdout w |}
    end.

(** Reading an attribute of [self] that may not have been set. *)
Definition getattr {A} (name : string) (field : option A) : M A :=
  match field with
  | Some a => ret a
  | None => raise (AttributeError name)
  end.

(** [d[key]] *)
Definition getitem (d : gmap string value) (key : string) : M value :=
  match d !! key with
  | Some v => ret v
  | None => raise (KeyError key)
  end.

(** [for doc in docs: ctx.update(doc)] *)
Definition update_all (ctx : gmap string value)
    (docs : list (gmap string value)) : gmap string value :=
  foldl (fun ctx doc => doc ∪ ctx) ctx docs.

Section Methods.
Variable K : Collaborators.

(** *** [ProcessFile] *)

Definition HtmlJinja_ProcessFile (self : Processor)
    (in_path out_path : string) : M value :=
  do in_str <- ReadFileContent K in_path;
  do env <- getattr "_env" (_env self);
  do template <- from_string K env in_str;
  do ctx <- getattr "_ctx" (_ctx self);
  do out_str <- render K template ctx;
  exec WriteFileContent K out_path out_str;
  ret (VBool true).

Definition YamlJinja_ProcessFile (self : Processor)
    (in_path out_path : string) : M value :=
  exec import "yaml";
  do ctx <- getattr "_ctx" (_ctx self);
  do text <- ReadFileContent K in_path;
  do docs <- load_all K text;
  let ctx := update_all ctx docs in
  do env <- getattr "_env" (_env self);
  do layout <- getitem ctx "layout";
  do template <- get_template K env layout;
  do out_str <- render K template ctx;
  exec WriteFileContent K out_path out_str;
  ret (VBool true).

Definition CssYaml_ProcessFile (self : Processor)
    (in_path out_path : string) : M value :=
  exec import "cssyaml";
  do text <- ReadFileContent K in_path;
  do ctx <- getattr "_ctx" (_ctx self);
  do timestamp <- getitem ctx "timestamp";
  do css <- GenerateCss K text timestamp;
  exec WriteFileContent K out_path css;
  ret (VBool true).

(** [pass]: the method falls off its end and returns [None]. *)
Definition Ignore_ProcessFile (self : Processor)
    (in_path out_path : string) : M value :=
  ret VNone.

Definition CopyFile_ProcessFile (self : Processor)
    (in_path out_path : string) : M value :=
  exec shutil_copy in_path out_path;
  ret (VBool true).

Definition ProcessFile (self : Processor)
    (in_path out_path : string) : M value :=
  match cls self with
  | HtmlJinjaProcessor => HtmlJinja_ProcessFile self in_path out_path
  | YamlJinjaProcessor => YamlJinja_ProcessFile self in_path out_path
  | CssYamlProcessor => CssYaml_ProcessFile self in_path out_path
  | IgnoreProtectedFileProcessor => Ignore_ProcessFile self in_path out_path
  | CopyFileProcessor => CopyFile_ProcessFile self in_path out_path
  end.

End Methods.

(** *** [StartProcessing] and [EndProcessing]

    Both change [self], and an exception may leave it half changed, so they
    give back the object next to the outcome. *)

Definition HtmlJinja_StartProcessing (self : Processor)
    (ctx : gmap string value) (w : World) : Processor * outcome unit :=
  match (exec import "jinja2"; import "jinja2_markdown.filters") w with
  | Raise e w' => (self, Raise e w')
  | Return _ w' =>
      let self := {| cls := cls self; _ctx := Some ctx; _env := _env self |} in
      match ctx !! "input_root" with
      | None => (self, Raise (KeyError "input_root") w')
      | Some root =>
          ({| cls := cls self; _ctx := _ctx self;
              _env := Some {| loader := root; filters := ["markdown"] |} |},
           Return tt w')
      end
  end.

Definition StartProcessing (self : Processor) (ctx : gmap string value)
    (w : World) : Processor * outcome unit :=
  match cls self with
  | HtmlJinjaProcessor | YamlJinjaProcessor =>
      HtmlJinja_StartProcessing self ctx w
  | CssYamlProcessor =>
      ({| cls := cls self; _ctx := Some ctx; _env := _env self |}, Return tt w)
  | IgnoreProtectedFileProcessor | CopyFileProcessor => (self, Return tt w)
  end.

Definition EndProcessing (self : Processor) (w : World)
    : Processor * outcome unit :=
  match cls self with
  | HtmlJinjaProcessor | YamlJinjaProcessor =>
      match _env self with
      | None => (self, Raise (AttributeError "_env") w)
      | Some _ =>
          let self := {| cls := cls self; _ctx := _ctx self; _env := None |} in
          match _ctx self with
          | None => (self, Raise (AttributeError "_ctx") w)
          | Some _ =>
              ({| cls := cls self; _ctx := None; _env := None |}, Return tt w)
          end
      end
  | CssYamlProcessor =>
      match _ctx self with
      | None => (self, Raise (AttributeError "_ctx") w)
      | Some _ =>
          ({| cls := cls self; _ctx := None; _env := _env self |}, Return tt w)
      end
  | IgnoreProtectedFileProcessor | CopyFileProcessor => (self, Return tt w)
  end.

(** *** Resolution *)


(** ** pywebgen.py *)

(** [int(s)] on a byte string: surrounding white space, an optional sign,
    then decimal digits. [None] stands for [ValueError]. *)
Module PyInt.

Fixpoint lstrip (s : string) : string :=
  match s with
  | String c r => if Ascii.is_space c then lstrip r else s
  | EmptyString => EmptyString
  end.

Definition strip (s : string) : string :=
  String.rev (lstrip (String.rev (lstrip s))).

Fixpoint digits (s : string) (acc : Z) : option Z :=
  match s with
  | EmptyString => Some acc
  | String c r =>
      match Ascii.is_nat c with
      | Some d => digits r (10 * acc + Z.of_nat d)
      | None => None
      end
  end.

Definition unsigned (s : string) : option Z :=
  match s with
  | EmptyString => None
  | _ => digits s 0
  end.

Definition int (s : string) : option Z :=
  match strip s with
  | String "-" r => Z.opp <$> unsigned r
  | String "+" r => unsigned r
  | t => unsigned t
  end.

End PyInt.

(** The attributes of the [options] object of the command parsers; an
    option that was not given is [None]. *)
Record Options := {
  deploy_dir : option string;
  embed_pyweb : value;
  manifest : option string;
}.

(** The rest of the package, as seen from the commands: the option parser
    and the entry points of [container], [generator], [versions] and
    [deploy]. *)
Record Package := {
  (* parser.parse_args(cmdline), for the parser declaring these dests;
     a malformed command line is a SystemExit *)
  parse_args : list string -> list string -> M (Options * list string);
  (* container.Container.Create(path, deploy_dir, embed_pyweb=...) *)
  Container_Create : string -> option string -> value -> M unit;
  (* generator.Generator(input, processors).Generate(output, manifest_path=...) *)
  Generator_Generate :
    string -> list string -> string -> option string -> M unit;
  (* versions.VersionnedGenerator(dir, deploy_dir).Generate(input, processors):
     timestamp, output directory, manifest, made current *)
  Versionned_Generate :
    string -> option string -> string -> list string ->
    M (string * string * string * bool);
  (* versions.VersionnedGenerator(dir, deploy_dir).ChangeCurrent(version) *)
  ChangeCurrent : string -> option string -> Z -> M string;
  (* versions.VersionnedGenerator(dir).Versions() *)
  Versions : string -> M (list string * option string);
  (* versions.VersionnedGenerator(dir).GarbageCollect() *)
  GarbageCollect : string -> M (list string);
  (* deploy.Deploy(output, deploy_dir, manifest) *)
  Deploy : string -> string -> string -> M unit;
  (* deploy.Undeploy(output, deploy_dir, manifest) *)
  Undeploy : string -> string -> string -> M unit;
}.

Definition dquote : string := String (ascii_of_nat 34) EmptyString.
Definition newline : string := String (ascii_of_nat 10) EmptyString.

(** [sep.join(parts)] *)
Fixpoint join (sep : string) (parts : list string) : string :=
  match parts with
  | [] => EmptyString
  | [s] => s
  | s :: rest => s +:+ sep +:+ join sep rest
  end.

Definition print_help (usage : string) : M unit :=
  fun w => Return tt {| modules := modules w; files := files w;
                        dirs := dirs w; stdout := stdout w ++ [Help usage] |}.

(** [os.path.exists(path)] *)
Definition path_exists (path : string) : M bool :=
  fun w => Return (bool_decide (is_Some (files w !! path))
                   || bool_decide (path ∈ dirs w)) w.

(** ['%2d' % i] *)
Definition fmt_2d (i : nat) : string :=
  let s := pretty i in
  if (String.length s <? 2)%nat then " " +:+ s else s.

Fixpoint print_lines (lines : list string) : M unit :=
  match lines with
  | [] => ret tt
  | l :: rest => exec print l; print_lines rest
  end.

Section Commands.
Variable P : Package.

Definition startsite_cmd (cmdline : list string) : M Z :=
  let STARTSITE_USAGE := "%prog startsite [-d <deploy_dir>] <site dir>" in
  do parsed <- parse_args P ["deploy_dir"; "embed_pyweb"] cmdline;
  let '(options, args) := parsed in
  if negb (length args =? 1)%nat then
    exec print_help STARTSITE_USAGE; ret 2
  else
    do found <- path_exists (args !!! 0%nat);
    if found then
      exec print "Path already exists, cannot create site."; ret 1
    else
      exec Container_Create P (args !!! 0%nat) (deploy_dir options)
                            (embed_pyweb options);
      exec print ("Created site container in " +:+ args !!! 0%nat);
      ret 0.

Definition generate_cmd (cmdline : list string) : M Z :=
  let GENERATE_USAGE := "%prog generate [options] <input dir> <output dir>" in
  do parsed <- parse_args P ["manifest"] cmdline;
  let '(options, args) := parsed in
  if negb (length args =? 2)%nat then
    exec print_help GENERATE_USAGE; ret 2
  else
    exec Generator_Generate P (args !!! 0%nat) ListProcessors
                            (args !!! 1%nat) (manifest options);
    ret 0.

Definition vgenerate_cmd (cmdline : list string) : M Z :=
  let VGENERATE_USAGE := "%prog vgenerate <input dir> <versions dir>" in
  do parsed <- parse_args P ["deploy_dir"] cmdline;
  let '(options, args) := parsed in
  if negb (length args =? 2)%nat then
    exec print_help VGENERATE_USAGE; ret 2
  else
    do r <- Versionned_Generate P (args !!! 1%nat) (deploy_dir options)
                                (args !!! 0%nat) ListProcessors;
    let '(ts, out, manifest, current) := r in
    exec (if current : bool
          then print ("Generated version " +:+ ts +:+ " and made current.")
          else print ("Generated version " +:+ ts +:+ "."));
    ret 0.

Definition vcurrent_cmd (cmdline : list string) : M Z :=
  let VCURRENT_USAGE := "%prog vcurrent <versions_dir> <version>" in
  do parsed <- parse_args P ["deploy_dir"] cmdline;
  let '(options, args) := parsed in
  if negb (length args =? 2)%nat then
    exec print_help VCURRENT_USAGE; ret 2
  else
    let selected :=
      if String.eqb (args !!! 1%nat) "latest" then Some 0
      else PyInt.int (args !!! 1%nat) in
    match selected with
    | None =>
        exec print ("Version must be an integer, or "
                    +:+ dquote +:+ "latest" +:+ dquote);
        ret 2
    | Some version =>
        do ts <- ChangeCurrent P (args !!! 0%nat) (deploy_dir options) version;
        exec print ("Set current version to " +:+ ts +:+ ".");
        ret 0
    end.

Fixpoint vinfo_lines (i : nat) (site_versions : list string)
    (current : option string) : list string :=
  match site_versions with
  | [] => []
  | ts :: rest =>
      (if bool_decide (Some ts = current)
       then "  " +:+ fmt_2d i +:+ ". " +:+ ts +:+ " (current)"
       else "  " +:+ fmt_2d i +:+ ". " +:+ ts)
      :: vinfo_lines (S i) rest current
  end.

Definition vinfo_cmd (cmdline : list string) : M Z :=
  let VINFO_USAGE := "%prog vinfo <versions_dir>" in
  do parsed <- parse_args P [] cmdline;
  let '(options, args) := parsed in
  if negb (length args =? 1)%nat then
    exec print_help VINFO_USAGE; ret 2
  else
    do r <- Versions P (args !!! 0%nat);
    let '(site_versions, current) := r in
    match site_versions with
    | [] => exec print "No website versions."; ret 0
    | _ =>
        exec print "Versions:";
        exec print_lines (vinfo_lines 0 site_versions current);
        ret 0
    end.

Definition vgc_cmd (cmdline : list string) : M Z :=
  let VGC_USAGE := "%prog vgc <versions_dir>" in
  do parsed <- parse_args P [] cmdline;
  let '(options, args) := parsed in
  if negb (length args =? 1)%nat then
    exec print_help VGC_USAGE; ret 2
  else
    do gc_versions <- GarbageCollect P (args !!! 0%nat);
    exec match gc_versions with
         | [] =>
             print "Nothing to garbage collect or no current version to base from."
         | _ =>
             exec print ("Garbage collected " +:+ pretty (length gc_versions)
                         +:+ " versions:");
             print (join newline ((fun v => "  " +:+ v) <$> gc_versions))
         end;
    ret 0.

Definition deploy_cmd (cmdline : list string) : M Z :=
  let DEPLOY_USAGE :=
    "%prog deploy <webgen output dir> <deploy dir> <webgen manifest>" in
  do parsed <- parse_args P [] cmdline;
  let '(options, args) := parsed in
  if negb (length args =? 3)%nat then
    exec print_help DEPLOY_USAGE; ret 2
  else
    exec Deploy P (args !!! 0%nat) (args !!! 1%nat) (args !!! 2%nat);
    ret 0.

Definition undeploy_cmd (cmdline : list string) : M Z :=
  let UNDEPLOY_USAGE :=
    "%prog undeploy <webgen output dir> <deploy dir> <webgen manifest>" in
  do parsed <- parse_args P [] cmdline;
  let '(options, args) := parsed in
  if negb (length args =? 3)%nat then
    exec print_help UNDEPLOY_USAGE; ret 2
  else
    exec Undeploy P (args !!! 0%nat) (args !!! 1%nat) (args !!! 2%nat);
    ret 0.

(** The ordered dictionary of commands. *)
Definition COMMANDS : list (string * (list string -> M Z)) :=
  [ ("startsite", startsite_cmd);
    ("generate", generate_cmd);
    ("vgenerate", vgenerate_cmd);
    ("vcurrent", vcurrent_cmd);
    ("vinfo", vinfo_cmd);
    ("vgc", vgc_cmd);
    ("deploy", deploy_cmd);
    ("undeploy", undeploy_cmd) ].

Fixpoint lookup_command (name : string)
    (commands : list (string * (list string -> M Z)))
    : option (list string -> M Z) :=
  match commands with
  | [] => None
  | (k, cmd) :: rest =>
      if String.eqb k name then Some cmd else lookup_command name rest
  end.

(** [main], on the arguments after the program name. *)
Definition main (argv : list string) : M Z :=
  let USAGE :=
    "%prog <command> [options] <command args>" +:+ newline +:+ newline
    +:+ "Commands:" +:+ newline +:+ "  "
    +:+ join (newline +:+ "  ") COMMANDS.*1 in
  do parsed <- parse_args P [] argv;
  let '(options, args) := parsed in
  if (length args <? 1)%nat then
    exec print_help USAGE; ret 2
  else
    match lookup_command (args !!! 0%nat) COMMANDS with
    | None =>
        exec print ("No such command." +:+ newline); exec print_help USAGE; ret 2
    | Some cmd => cmd (drop 1 args)
    end.

End Commands.

(** ** Vocabulary of the statements *)

(** The modules the constructor of a class imports. *)
Definition requires (C : ProcessorClass) : list string :=
  match C with
  | HtmlJinjaProcessor => ["jinja2"; "jinja2_markdown.filters"]
  | YamlJinjaProcessor => ["jinja2"; "jinja2_markdown.filters"; "yaml"]
  | CssYamlProcessor => ["cssyaml"]
  | IgnoreProtectedFileProcessor | CopyFileProcessor => []
  end.

(** Every module the constructor of [C] imports can be found. *)
Definition importable (w : World) (C : ProcessorClass) : bool :=
  forallb (fun m => bool_decide (m ∈ modules w)) (requires C).

(** [name] is a key of [PROCESSORS]. *)
Definition registered (name : string) : bool :=
  bool_decide (is_Some (PROCESSORS !! name)).

(** If [name] is registered, its class can be constructed in [w]. *)
Definition ready (w : World) (name : string) : bool :=
  match PROCESSORS !! name with
  | Some C => importable w C
  | None => true
  end.

Definition renderer (C : ProcessorClass) : bool :=
  match C with
  | HtmlJinjaProcessor | YamlJinjaProcessor | CssYamlProcessor => true
  | IgnoreProtectedFileProcessor | CopyFileProcessor => false
  end.

(** How the loop ends: it instantiates every name, or it stops at the first
    name that is unknown or whose class cannot be constructed. *)
Inductive loop_end (w : World) (processors : list string)
    (acc : list Processor) : outcome (list Processor) -> Prop :=
  | loop_done classes :
      Forall2 (fun n C => PROCESSORS !! n = Some C /\ importable w C = true)
              processors classes ->
      loop_end w processors acc (Return (acc ++ (fresh <$> classes)) w)
  | loop_unknown pre n post :
      processors = pre ++ n :: post ->
      Forall (fun k => registered k = true /\ ready w k = true) pre ->
      PROCESSORS !! n = None ->
      loop_end w processors acc (Raise (UnknownProcessor n) w)
  | loop_failed pre n post C e :
      processors = pre ++ n :: post ->
      Forall (fun k => registered k = true /\ ready w k = true) pre ->
      PROCESSORS !! n = Some C ->
      importable w C = false ->
      new C w = Raise e w ->
      loop_end w processors acc (Raise e w).

(** Collaborators that do the least: files are read from and written to the
    world's file map, a template is its own source and renders to itself, a
    YAML text holds no document, a style sheet is generated verbatim. *)
Definition plain : Collaborators := {|
  Template := string;
  ReadFileContent path := fun w =>
    match files w !! path with
    | Some content => Return content w
    | None => Raise (IOError path) w
    end;
  WriteFileContent path content := fun w =>
    Return tt {| modules := modules w;
                 files := <[path := content]> (files w);
                 dirs := dirs w; stdout := stdout w |};
  from_string env source := ret source;
  get_template env name := ret EmptyString;
  render template ctx := ret template;
  load_all text := ret [];
  GenerateCss text timestamp := ret text;
|}.

(** A world with nothing installed and nothing on disk. *)
Definition bare : World :=
  {| modules := ∅; files := ∅; dirs := ∅; stdout := [] |}.

(** A world in which every optional dependency is installed. *)
Definition equipped : World :=
  {| modules := list_to_set ["jinja2"; "jinja2_markdown.filters"; "yaml";
                             "cssyaml"];
     files := ∅; dirs := ∅; stdout := [] |}.

(** [equipped], with one page in the input tree. *)
Definition site : World :=
  {| modules := modules equipped;
     files := {[ "in/index.html" := "<h1>pyweb</h1>" ]};
     dirs := {[ "in"; "out" ]}; stdout := [] |}.

(** An [HtmlJinjaProcessor] after [StartProcessing]. *)
Definition started : Processor :=
  {| cls := HtmlJinjaProcessor;
     _ctx := Some {[ "input_root" := VStr "in" ]};
     _env := Some {| loader := VStr "in"; filters := ["markdown"] |} |}.

(** The options each command's parser declares and the number of
    positional arguments the command asks for. *)
Definition signature (name : string) : option (list string * nat) :=
  if String.eqb name "startsite" then Some (["deploy_dir"; "embed_pyweb"], 1%nat)
  else if String.eqb name "generate" then Some (["manifest"], 2%nat)
  else if String.eqb name "vgenerate" then Some (["deploy_dir"], 2%nat)
  else if String.eqb name "vcurrent" then Some (["deploy_dir"], 2%nat)
  else if String.eqb name "vinfo" then Some ([], 1%nat)
  else if String.eqb name "vgc" then Some ([], 1%nat)
  else if String.eqb name "deploy" then Some ([], 3%nat)
  else if String.eqb name "undeploy" then Some ([], 3%nat)
  else None.

(** The selector of [vcurrent] is neither [latest] nor an integer. *)
Definition bad_selector (name : string) (args : list string) : Prop :=
  name = "vcurrent"%string /\
  args !!! 1%nat <> "latest"%string /\ PyInt.int (args !!! 1%nat) = None.

(** The path given to [startsite] exists. *)
Definition already_there (name : string) (args : list string) (w : World)
    : Prop :=
  name = "startsite"%string /\
  (is_Some (files w !! (args !!! 0%nat)) \/ args !!! 0%nat ∈ dirs w).

(** A computation that returns from every state. *)
Definition never_raises {A} (m : M A) : Prop :=
  forall w, exists a w', m w = Return a w'.

(** A package none of whose operations raises. *)
Definition dependable (P : Package) : Prop :=
  (forall path deploy embed,
     never_raises (Container_Create P path deploy embed)) /\
  (forall input processors output manifest_path,
     never_raises (Generator_Generate P input processors output manifest_path)) /\
  (forall dir deploy input processors,
     never_raises (Versionned_Generate P dir deploy input processors)) /\
  (forall dir deploy version, never_raises (ChangeCurrent P dir deploy version)) /\
  (forall dir, never_raises (Versions P dir)) /\
  (forall dir, never_raises (GarbageCollect P dir)) /\
  (forall output deploy manifest_path,
     never_raises (Deploy P output deploy manifest_path)) /\
  (forall output deploy manifest_path,
     never_raises (Undeploy P output deploy manifest_path)).

(** What [vcurrent] does once it has settled on the integer [version]. *)
Definition change_current (P : Package) (options : Options) (dir : string)
    (version : Z) : M Z :=
  do ts <- ChangeCurrent P dir (deploy_dir options) version;
  exec print ("Set current version to " +:+ ts +:+ ".");
  ret 0.

(** The world after one more item went to standard output. *)
Definition printed (w : World) (item : output) : World :=
  {| modules := modules w; files := files w; dirs := dirs w;
     stdout := stdout w ++ [item] |}.

(** The world after these lines went to standard output. *)
Definition printed_lines (w : World) (lines : list string) : World :=
  {| modules := modules w; files := files w; dirs := dirs w;
     stdout := stdout w ++ (Line <$> lines) |}.

(** A package whose parser takes every word for a positional argument and
    whose operations succeed without doing anything. *)
Definition stub : Package := {|
  parse_args dests cmdline :=
    ret ({| deploy_dir := None; embed_pyweb := VNone; manifest := None |},
         cmdline);
  Container_Create path deploy embed := ret tt;
  Generator_Generate input processors output manifest_path := ret tt;
  Versionned_Generate dir deploy input processors :=
    ret ("20081231", dir, "MANIFEST", true);
  ChangeCurrent dir deploy version := ret (pretty version);
  Versions dir := ret ([], None);
  GarbageCollect dir := ret [];
  Deploy output deploy manifest_path := ret tt;
  Undeploy output deploy manifest_path := ret tt;
|}.

(** * Properties *)

(** ** Constructors *)

Lemma import_found m w : m ∈ modules w -> import m w = Return tt w.
Proof. intros H. unfold import. by rewrite decide_True. Qed.

Lemma import_missing m w :
  m ∉ modules w -> import m w = Raise (ImportError m) w.
Proof. intros H. unfold import. by rewrite decide_False. Qed.

Ltac run_imports :=
  repeat first [ rewrite import_found by done
               | rewrite import_missing by done ];
  cbn.

Lemma importable_elem w C m :
  importable w C = true -> m ∈ requires C -> m ∈ modules w.
Proof.
  unfold importable. rewrite forallb_forall. intros H Hm.
  apply list_elem_of_In in Hm. apply H in Hm. by apply bool_decide_eq_true in Hm.
Qed.

Lemma new_importable w C :
  importable w C = true -> new C w = Return (fresh C) w.
Proof.
  intros H. assert (Hin : forall m, m ∈ requires C -> m ∈ modules w)
    by (intros m; by apply importable_elem).
  unfold new, bind, __init__.
  destruct C; cbn -[import] in *; try reflexivity.
  - unfold HtmlJinja_init, try_except_ImportError, bind.
    rewrite !import_found by (apply Hin; set_solver). reflexivity.
  - unfold YamlJinja_init, HtmlJinja_init, try_except_ImportError, bind.
    rewrite !import_found by (apply Hin; set_solver). reflexivity.
  - unfold CssYaml_init. rewrite import_found by (apply Hin; set_solver).
    reflexivity.
Qed.


(** A constructor never changes the world, and fails exactly when one of
    its imports does. *)
Lemma new_cases w C :
  (importable w C = true /\ new C w = Return (fresh C) w) \/
  (importable w C = false /\ exists e, new C w = Raise e w /\
     match C with
     | HtmlJinjaProcessor => e = MissingPythonModule "jinja2"
     | YamlJinjaProcessor =>
         e = MissingPythonModule "jinja2" \/
         (importable w HtmlJinjaProcessor = true /\
          e = MissingPythonModule "yaml")
     | CssYamlProcessor => e = ImportError "cssyaml"
     | _ => False
     end).
Proof.
  destruct (importable w C) eqn:H; [left; split; [done|by apply new_importable]|].
  right; split; [done|].
  unfold importable in H. unfold new, bind, __init__.
  destruct C; cbn -[import] in *; try discriminate.
  - unfold HtmlJinja_init, try_except_ImportError, bind.
    destruct (decide ("jinja2" ∈ modules w)) as [Hj|Hj];
      [destruct (decide ("jinja2_markdown.filters" ∈ modules w)) as [Hm|Hm]|];
      run_imports; eauto.
    rewrite !bool_decide_eq_true_2 in H by done. discriminate.
  - unfold YamlJinja_init, HtmlJinja_init, try_except_ImportError, bind.
    destruct (decide ("jinja2" ∈ modules w)) as [Hj|Hj];
      [destruct (decide ("jinja2_markdown.filters" ∈ modules w)) as [Hm|Hm];
       [destruct (decide ("yaml" ∈ modules w)) as [Hy|Hy]|]|];
      run_imports; eauto.
    + rewrite !bool_decide_eq_true_2 in H by done. discriminate.
    + eexists; split; [done|]. right. split; [|done].
      by rewrite !bool_decide_eq_true_2.
  - unfold CssYaml_init.
    destruct (decide ("cssyaml" ∈ modules w)) as [Hc|Hc]; run_imports; eauto.
    rewrite bool_decide_eq_true_2 in H by done. discriminate.
Qed.

(** ** [GetProcessors] *)

Lemma registered_Some n C : PROCESSORS !! n = Some C -> registered n = true.
Proof. intros H. apply bool_decide_eq_true. by exists C. Qed.

Lemma registered_None n : PROCESSORS !! n = None <-> registered n = false.
Proof.
  unfold registered. rewrite bool_decide_eq_false. split.
  - intros -> [C HC]. discriminate.
  - intros H. destruct (PROCESSORS !! n) eqn:E; [|done]. destruct H. eauto.
Qed.

Lemma ready_Some w n C :
  PROCESSORS !! n = Some C -> ready w n = importable w C.
Proof. intros H. unfold ready. by rewrite H. Qed.

Lemma GetProcessors_loop_end processors :
  forall acc w,
    loop_end w processors acc (GetProcessors_loop processors acc w).
Proof.
  induction processors as [|n rest IH]; intros acc w; cbn.
  - unfold ret. rewrite <- (app_nil_r acc) at 2.
    apply (loop_done w [] acc []). constructor.
  - destruct (PROCESSORS !! n) as [C|] eqn:HC.
    + unfold bind. destruct (new_cases w C) as [[Hi ->]|[Hi [e [He _]]]].
      * destruct (IH (acc ++ [fresh C]) w)
          as [classes HF | pre k post -> Hpre Hk
             | pre k post C' e -> Hpre Hk Hi' He].
        -- rewrite <- app_assoc. change ([fresh C] ++ (fresh <$> classes))
             with (fresh <$> (C :: classes)).
           apply loop_done. by constructor.
        -- apply (loop_unknown w _ _ (n :: pre) k post); [done| |done].
           constructor; [|done]. split; [by eapply registered_Some|].
           by rewrite (ready_Some _ _ _ HC).
        -- apply (loop_failed w _ _ (n :: pre) k post C'); [done| |done..].
           constructor; [|done]. split; [by eapply registered_Some|].
           by rewrite (ready_Some _ _ _ HC).
      * rewrite He. by apply (loop_failed w _ _ [] n rest C).
    + by apply (loop_unknown w _ _ [] n rest).
Qed.

Lemma forallb_middle {A} (f : A -> bool) pre x post :
  forallb f (pre ++ x :: post) = true -> f x = true.
Proof.
  rewrite forallb_app. cbn. intros H.
  apply andb_prop in H as [_ H]. by apply andb_prop in H as [H _].
Qed.

Lemma GetProcessors_unfold processors w :
  GetProcessors processors w =
  match GetProcessors_loop processors [] w with
  | Return objs w' =>
      Return (fresh IgnoreProtectedFileProcessor :: objs
              ++ [fresh CopyFileProcessor]) w'
  | Raise e w' => Raise e w'
  end.
Proof.
  unfold GetProcessors, bind.
  by destruct (GetProcessors_loop processors [] w).
Qed.

(** C1, counterexample: a registered name whose class cannot be
    constructed gives no pipeline. *)
Lemma GetProcessors_pipeline_counterexample :
  forallb registered ["HtmlJinja"] = true /\
  GetProcessors ["HtmlJinja"] bare = Raise (MissingPythonModule "jinja2") bare /\
  ~ exists pipeline w', GetProcessors ["HtmlJinja"] bare = Return pipeline w'.
Proof.
  assert (H : GetProcessors ["HtmlJinja"] bare
              = Raise (MissingPythonModule "jinja2") bare)
    by (vm_compute; reflexivity).
  split; [vm_compute; reflexivity|]. split; [exact H|].
  intros (pipeline & w' & H'). rewrite H in H'. discriminate.
Qed.

(** C1 (amended): for every sequence of registered names whose classes
    import only modules that can be found, [GetProcessors] returns, without
    touching the world, the list made of an [IgnoreProtectedFileProcessor],
    then one new instance of the class of each name, in the order of the
    names, then a [CopyFileProcessor]. *)
Theorem GetProcessors_pipeline processors w :
  forallb registered processors = true ->
  forallb (ready w) processors = true ->
  exists classes,
    Forall2 (fun n C => PROCESSORS !! n = Some C) processors classes /\
    GetProcessors processors w =
      Return ([fresh IgnoreProtectedFileProcessor]
              ++ (fresh <$> classes)
              ++ [fresh CopyFileProcessor]) w.
Proof.
  intros Hreg Hready. rewrite GetProcessors_unfold.
  destruct (GetProcessors_loop_end processors [] w)
    as [classes HF | pre n post -> _ Hn | pre n post C e -> _ Hn Hi _].
  - exists classes. split; [|reflexivity].
    eapply Forall2_impl; [exact HF|]. by intros n C [? _].
  - apply forallb_middle in Hreg. apply registered_None in Hn. congruence.
  - apply forallb_middle in Hready. rewrite (ready_Some _ _ _ Hn) in Hready.
    congruence.
Qed.

Lemma GetProcessors_pipeline_witness :
  exists classes,
    Forall2 (fun n C => PROCESSORS !! n = Some C)
            ["CssYaml"; "YamlJinja"; "CssYaml"] classes /\
    GetProcessors ["CssYaml"; "YamlJinja"; "CssYaml"] equipped =
      Return ([fresh IgnoreProtectedFileProcessor]
              ++ (fresh <$> classes)
              ++ [fresh CopyFileProcessor]) equipped.
Proof.
  apply (GetProcessors_pipeline ["CssYaml"; "YamlJinja"; "CssYaml"] equipped);
    vm_compute; reflexivity.
Defined.

(** C2, counterexample: with [yaml] missing, a sequence of registered names
    makes [GetProcessors] raise, and an unregistered name after a class that
    cannot be constructed is never reported. *)
Lemma GetProcessors_UnknownProcessor_counterexample :
  (forallb registered ["YamlJinja"] = true /\
   exists e, GetProcessors ["YamlJinja"] bare = Raise e bare) /\
  (registered "Markdown" = false /\
   GetProcessors ["HtmlJinja"; "Markdown"] bare
     = Raise (MissingPythonModule "jinja2") bare).
Proof.
  split; split; try (vm_compute; reflexivity).
  exists (MissingPythonModule "jinja2"). vm_compute; reflexivity.
Qed.

(** C2 (amended): an [UnknownProcessor] raised by [GetProcessors] names an
    identifier of the sequence that is not registered; and when the modules
    imported by the classes of the registered identifiers can be found,
    [GetProcessors] raises [UnknownProcessor] if and only if some identifier
    of the sequence is not registered, and returns without raising when all
    of them are. *)
Theorem GetProcessors_UnknownProcessor processors w :
  (forall name w',
     GetProcessors processors w = Raise (UnknownProcessor name) w' ->
     name ∈ processors /\ registered name = false) /\
  (forallb (ready w) processors = true ->
   ((exists name, GetProcessors processors w = Raise (UnknownProcessor name) w)
    <-> (exists name, name ∈ processors /\ registered name = false)) /\
   (forallb registered processors = true ->
    exists pipeline, GetProcessors processors w = Return pipeline w)).
Proof.
  split.
  - intros name w'. rewrite GetProcessors_unfold.
    destruct (GetProcessors_loop_end processors [] w)
      as [classes HF | pre n post -> _ Hn
         | pre n post C e -> _ Hn Hi He]; intros H; [discriminate|..].
    + injection H as -> _. split; [set_solver|by apply registered_None].
    + injection H as -> _. destruct (new_cases w C) as [[? _]|[_ [e' [He' HC]]]];
        [congruence|].
      rewrite He in He'. injection He' as <-.
      destruct C; try done; destruct HC as [?|[_ ?]]; discriminate.
  - intros Hready. split; [split|].
    + intros [name H]. revert H. rewrite GetProcessors_unfold.
      destruct (GetProcessors_loop_end processors [] w)
        as [classes HF | pre n post -> _ Hn
           | pre n post C e -> _ Hn Hi He]; intros H; [discriminate|..].
      * exists n. split; [set_solver|by apply registered_None].
      * apply forallb_middle in Hready.
        rewrite (ready_Some _ _ _ Hn) in Hready. congruence.
    + intros (name & Hin & Hreg). rewrite GetProcessors_unfold.
      destruct (GetProcessors_loop_end processors [] w)
        as [classes HF | pre n post -> _ Hn
           | pre n post C e -> _ Hn Hi He].
      * exfalso. apply list_elem_of_lookup in Hin as [i Hi].
        destruct (Forall2_lookup_l _ _ _ _ _ HF Hi) as (C & _ & HC & _).
        apply registered_Some in HC. congruence.
      * by exists n.
      * apply forallb_middle in Hready.
        rewrite (ready_Some _ _ _ Hn) in Hready. congruence.
    + intros Hreg. rewrite GetProcessors_unfold.
      destruct (GetProcessors_loop_end processors [] w)
        as [classes HF | pre n post -> _ Hn
           | pre n post C e -> _ Hn Hi He].
      * eauto.
      * apply forallb_middle in Hreg. apply registered_None in Hn. congruence.
      * apply forallb_middle in Hready.
        rewrite (ready_Some _ _ _ Hn) in Hready. congruence.
Qed.

Lemma GetProcessors_UnknownProcessor_witness :
  ((exists name,
      GetProcessors ["HtmlJinja"; "Markdown"; "CssYaml"] equipped
        = Raise (UnknownProcessor name) equipped)
   <-> (exists name, name ∈ ["HtmlJinja"; "Markdown"; "CssYaml"]
                     /\ registered name = false)) /\
  (forallb registered ["HtmlJinja"; "Markdown"; "CssYaml"] = true ->
   exists pipeline,
     GetProcessors ["HtmlJinja"; "Markdown"; "CssYaml"] equipped
       = Return pipeline equipped).
Proof.
  apply (GetProcessors_UnknownProcessor
           ["HtmlJinja"; "Markdown"; "CssYaml"] equipped).
  vm_compute; reflexivity.
Defined.

(** ** Missing dependencies *)





(** ** Strings and paths *)

Lemma append_cons c a b : String c a +:+ b = String c (a +:+ b).
Proof. reflexivity. Qed.

Lemma append_nil_l a : EmptyString +:+ a = a.
Proof. reflexivity. Qed.

Lemma append_nil_r a : a +:+ EmptyString = a.
Proof. induction a as [|c a IH]; [done|]. by rewrite append_cons, IH. Qed.

Lemma append_assoc a b c : (a +:+ b) +:+ c = a +:+ (b +:+ c).
Proof. induction a as [|x a IH]; [done|]. by rewrite !append_cons, IH. Qed.

Lemma startswith_spec s p :
  PyStr.startswith s p = true <-> exists r, s = p +:+ r.
Proof.
  unfold PyStr.startswith. revert s.
  induction p as [|c p IH]; intros s.
  - split; [intros _; by exists s|by destruct s].
  - destruct s as [|d s]; cbn; [split; [done|intros [r Hr]; discriminate]|].
    destruct (ascii_dec c d) as [->|Hne].
    + rewrite IH. split; intros [r Hr]; exists r.
      * by rewrite append_cons, Hr.
      * rewrite append_cons in Hr. by injection Hr.
    + split; [done|]. intros [r Hr]. rewrite append_cons in Hr.
      injection Hr as -> _. done.
Qed.

Lemma endswith_spec s p :
  PyStr.endswith s p = true <-> exists r, s = r +:+ p.
Proof.
  induction s as [|c s IH]; cbn [PyStr.endswith].
  - rewrite String.eqb_eq. split.
    + intros ->. by exists EmptyString.
    + intros [[|d r] Hr]; [done|discriminate].
  - rewrite orb_true_iff, String.eqb_eq, IH. split.
    + intros [<-|[r ->]]; [by exists EmptyString|by exists (String c r)].
    + intros [[|d r] Hr]; [by left|].
      rewrite append_cons in Hr. injection Hr as -> ->. right. by exists r.
Qed.

Lemma rfind_from_app c a b :
  forall i last,
    PyStr.rfind_from c (a +:+ b) i last =
    PyStr.rfind_from c b (i + Z.of_nat (String.length a))
                     (PyStr.rfind_from c a i last).
Proof.
  induction a as [|d a IH]; intros i last; cbn.
  - by rewrite Z.add_0_r.
  - rewrite append_cons. cbn. rewrite IH. f_equal. lia.
Qed.

Lemma rfind_from_absent c s :
  forall i last,
    PyStr.contains c s = false -> PyStr.rfind_from c s i last = last.
Proof.
  induction s as [|d s IH]; intros i last H; cbn in *; [done|].
  apply orb_false_iff in H as [-> H]. by apply IH.
Qed.

Lemma slice_from_app a b : PyStr.slice_from (String.length a) (a +:+ b) = b.
Proof. induction a as [|c a IH]; [by destruct b|]. by cbn. Qed.

(** What [basename] computes: the text after the last slash. *)
Lemma basename_join dir name :
  PyStr.contains "/" name = false ->
  dir = EmptyString \/ PyStr.endswith dir "/" = true ->
  os_path.basename (dir +:+ name) = name.
Proof.
  intros Hname [->|Hdir]; unfold os_path.basename, PyStr.rfind.
  - rewrite append_nil_l, rfind_from_absent by done. done.
  - apply endswith_spec in Hdir as [pre ->].
    rewrite !rfind_from_app, (rfind_from_absent _ name) by done. cbn.
    replace (Z.to_nat (0 + Z.of_nat (String.length pre) + 1))
      with (String.length (pre +:+ "/")).
    + apply slice_from_app.
    + clear. induction pre as [|c pre IH]; [done|].
      rewrite append_cons. cbn [String.length]. rewrite IH. lia.
Qed.


(** ** The ignore processor *)

Lemma Ignore_CanProcessFile_basename dir name :
  PyStr.contains "/" name = false ->
  dir = EmptyString \/ PyStr.endswith dir "/" = true ->
  Ignore_CanProcessFile (dir +:+ name) =
    PyStr.startswith name "_" || PyStr.startswith name ".#"
    || PyStr.endswith name "~".
Proof.
  intros Hname Hdir. unfold Ignore_CanProcessFile.
  rewrite basename_join by done.
  by destruct (_ || _ || _).
Qed.



(** C8: the decision of the ignore processor depends on the last component
    of the path only: whatever directory part is put in front of a name, the
    answer is the one for the bare name. So [_drafts/page.html] is not
    claimed, although its directory starts with [_]. *)
Theorem Ignore_only_basename self dir name :
  cls self = IgnoreProtectedFileProcessor ->
  PyStr.contains "/" name = false ->
  dir = EmptyString \/ PyStr.endswith dir "/" = true ->
  CanProcessFile self (dir +:+ name) = CanProcessFile self name /\
  CanProcessFile self "_drafts/page.html" = false.
Proof.
  intros Hcls Hname Hdir. unfold CanProcessFile. rewrite Hcls. split.
  - rewrite Ignore_CanProcessFile_basename by done.
    rewrite <- (append_nil_l name) at 4.
    rewrite Ignore_CanProcessFile_basename; auto.
  - vm_compute. reflexivity.
Qed.

Lemma Ignore_only_basename_witness :
  CanProcessFile (fresh IgnoreProtectedFileProcessor) ("_drafts/" +:+ "page.html")
    = CanProcessFile (fresh IgnoreProtectedFileProcessor) "page.html" /\
  CanProcessFile (fresh IgnoreProtectedFileProcessor) "_drafts/page.html" = false.
Proof.
  apply (Ignore_only_basename (fresh IgnoreProtectedFileProcessor)
                              "_drafts/" "page.html").
  - reflexivity.
  - reflexivity.
  - right. reflexivity.
Defined.

(** ** The copy processor *)






(** ** Output names *)

Lemma prefix_yaml_app c r :
  String.prefix ".yaml" (String c r) = false ->
  String.prefix ".yaml" (String c (r +:+ ".yaml")) = false.
Proof.
  intros Hr. apply not_true_is_false. intros Ht.
  apply (startswith_spec (String c (r +:+ ".yaml")) ".yaml") in Ht as [t Ht].
  destruct r as [|c1 [|c2 [|c3 [|c4 r]]]];
    cbv [String.append] in Ht; try discriminate Ht.
  injection Ht as -> -> -> -> -> _.
  assert (String.prefix ".yaml" (".yaml" +:+ r) = true) as Hp
    by (apply (startswith_spec _ ".yaml"); eauto).
  cbv [String.append] in Hp. congruence.
Qed.

(** Where [.yaml] occurs only as the extension, the rename changes the
    extension and nothing else. *)
Lemma YamlJinja_rename_extension stem :
  PyStr.occurs ".yaml" stem = false ->
  YamlJinja_OutputFileRename (stem +:+ ".yaml") = stem +:+ ".html".
Proof.
  unfold YamlJinja_OutputFileRename, PyStr.replace.
  induction stem as [|c r IH]; intros Hocc; [vm_compute; reflexivity|].
  cbn [PyStr.occurs] in Hocc. apply orb_false_iff in Hocc as [Hp Hocc].
  rewrite !append_cons. cbn [PyStr.replace_from].
  rewrite prefix_yaml_app by done.
  by rewrite IH.
Qed.

(** C6: the inherited [OutputFileRename] is the identity, and
    [YamlJinjaProcessor] maps [a/b.yaml] to [a/b.html]; but its [replace]
    rewrites every [.yaml] of the path, so [a.yaml.d/b.yaml] becomes
    [a.html.d/b.html] and not [a.yaml.d/b.html]. *)
Theorem YamlJinja_rename_all_occurrences :
  (forall C ctx env in_path,
     OutputFileRename {| cls := C; _ctx := ctx; _env := env |} in_path =
     if decide (C = YamlJinjaProcessor)
     then PyStr.replace in_path ".yaml" ".html"
     else in_path) /\
  OutputFileRename (fresh YamlJinjaProcessor) "a/b.yaml" = "a/b.html"%string /\
  OutputFileRename (fresh YamlJinjaProcessor) "a.yaml.d/b.yaml"
    = "a.html.d/b.html"%string /\
  OutputFileRename (fresh YamlJinjaProcessor) "a.yaml.d/b.yaml"
    <> "a.yaml.d/b.html"%string.
Proof.
  split; [by intros [] ctx env in_path|].
  split; [vm_compute; reflexivity|].
  split; [vm_compute; reflexivity|].
  vm_compute. discriminate.
Qed.

(** ** Computations that return *)

Lemma print_Return s : never_raises (print s).
Proof. intros w. unfold print. eauto. Qed.

Lemma ret_Return {A} (a : A) : never_raises (ret a).
Proof. intros w. unfold ret. eauto. Qed.

Lemma bind_Return {A B} (m : M A) (k : A -> M B) :
  never_raises m -> (forall a, never_raises (k a)) -> never_raises (bind m k).
Proof.
  intros Hm Hk w. unfold bind. destruct (Hm w) as (a & w' & ->). apply Hk.
Qed.

Lemma print_lines_Return lines : never_raises (print_lines lines).
Proof.
  induction lines as [|l lines IH]; cbn [print_lines].
  - apply ret_Return.
  - apply bind_Return; [apply print_Return|done].
Qed.

Lemma path_exists_never_raises path : never_raises (path_exists path).
Proof. intros w. unfold path_exists. eauto. Qed.

Create HintDb returns.
#[local] Hint Resolve print_Return ret_Return print_lines_Return
  path_exists_never_raises : returns.
#[local] Hint Resolve bind_Return : returns.

Ltac returns :=
  repeat match goal with
         | |- never_raises (bind _ _) => apply bind_Return; [|intros ?]
         | |- never_raises (let '(_, _) := ?r in _) => destruct r
         | |- never_raises (if ?b then _ else _) => destruct b
         | |- never_raises (match ?l with [] => _ | _ :: _ => _ end) =>
             destruct l
         | |- never_raises (match ?o with Some _ => _ | None => _ end) =>
             destruct o
         | |- never_raises _ => solve [auto with returns]
         end.

(** ** Return values of [ProcessFile] *)

Ltac run_step :=
  match goal with
  | H : bind ?m _ ?w = Return _ _ |- _ =>
      unfold bind at 1 in H; destruct (m w) eqn:?; [|discriminate H]
  | H : ret _ _ = Return _ _ |- _ => injection H as <- <-
  end.




(** ** Exit codes *)

Lemma path_exists_Return path w :
  path_exists path w =
  Return (bool_decide (is_Some (files w !! path))
          || bool_decide (path ∈ dirs w)) w.
Proof. reflexivity. Qed.

Lemma lookup_command_cases P name cmd :
  lookup_command name (COMMANDS P) = Some cmd ->
  (name = "startsite"%string /\ cmd = startsite_cmd P) \/
  (name = "generate"%string /\ cmd = generate_cmd P) \/
  (name = "vgenerate"%string /\ cmd = vgenerate_cmd P) \/
  (name = "vcurrent"%string /\ cmd = vcurrent_cmd P) \/
  (name = "vinfo"%string /\ cmd = vinfo_cmd P) \/
  (name = "vgc"%string /\ cmd = vgc_cmd P) \/
  (name = "deploy"%string /\ cmd = deploy_cmd P) \/
  (name = "undeploy"%string /\ cmd = undeploy_cmd P).
Proof.
  unfold COMMANDS. cbn [lookup_command].
  repeat (match goal with
          | |- context [String.eqb ?k name] =>
              destruct (String.eqb_spec k name) as [<-|_];
              [intros [= <-]; tauto|]
          end).
  discriminate.
Qed.

(** After the parser has returned, a command goes on with its body. *)
Ltac parsed H :=
  unfold startsite_cmd, generate_cmd, vgenerate_cmd, vcurrent_cmd, vinfo_cmd,
         vgc_cmd, deploy_cmd, undeploy_cmd;
  unfold bind at 1; rewrite H; cbv beta iota.

Ltac wrong_count Hlen :=
  match goal with
  | |- context [Nat.eqb ?a ?b] =>
      destruct (Nat.eqb_spec a b) as [?|_]; [by destruct Hlen|];
      cbn [negb]; unfold bind, print_help, ret; eauto
  end.

Ltac right_count Hlen := rewrite Hlen; cbn [Nat.eqb negb].

Ltac other_name :=
  match goal with
  | |- bad_selector _ _ -> _ => intros [? _]; discriminate
  | |- already_there _ _ _ -> _ => intros [? _]; discriminate
  end.

Ltac run_to_zero :=
  let H := fresh "Hrun" in
  intros _ _ ? ? H; repeat run_step;
  repeat match goal with
         | H : (let '(_, _) := ?r in _) _ = Return _ _ |- _ =>
             destruct r as [[[? ?] ?] ?] || destruct r
         | H : (if ?b then _ else _) _ = Return _ _ |- _ => destruct b
         | H : match ?l with [] => _ | _ :: _ => _ end _ = Return _ _ |- _ =>
             destruct l
         | _ => run_step
         end;
  reflexivity.

(** The exit code of each command, read off the result of its parser. *)
Lemma exit_codes_parsed P name cmd :
  lookup_command name (COMMANDS P) = Some cmd ->
  exists dests n,
    signature name = Some (dests, n) /\
    forall cmdline w options args w1,
      parse_args P dests cmdline w = Return (options, args) w1 ->
      (length args <> n -> exists w2, cmd cmdline w = Return 2 w2) /\
      (length args = n -> bad_selector name args ->
       exists w2, cmd cmdline w = Return 2 w2) /\
      (length args = n -> already_there name args w1 ->
       exists w2, cmd cmdline w = Return 1 w2) /\
      (length args = n -> ~ bad_selector name args ->
       ~ already_there name args w1 ->
       forall c w2, cmd cmdline w = Return c w2 -> c = 0).
Proof.
  intros Hcmd.
  destruct (lookup_command_cases P name cmd Hcmd)
    as [[-> ->]|[[-> ->]|[[-> ->]|[[-> ->]|[[-> ->]|[[-> ->]|[[-> ->]|[-> ->]]]]]]]];
    (eexists _, _; split; [reflexivity|]);
    intros cmdline w options args w1 Hparse;
    (split; [intros Hlen; parsed Hparse; wrong_count Hlen|
     split; [intros Hlen; try other_name|
     split; [intros Hlen; try other_name|
             intros Hlen; parsed Hparse; right_count Hlen;
             try run_to_zero]]]).
  - intros [_ Hex]. parsed Hparse. right_count Hlen.
    unfold bind at 1. rewrite path_exists_Return.
    assert (bool_decide (is_Some (files w1 !! (args !!! 0%nat)))
            || bool_decide (args !!! 0%nat ∈ dirs w1) = true) as ->.
    { apply orb_true_iff.
      destruct Hex; [left|right]; by apply bool_decide_eq_true. }
    unfold bind, print, ret. eauto.
  - intros _ Hnot c w2. unfold bind at 1. rewrite path_exists_Return.
    destruct (_ || _) eqn:E.
    + destruct Hnot. split; [done|].
      apply orb_true_iff in E as [E|E]; apply bool_decide_eq_true in E; auto.
    + intros H. repeat run_step. reflexivity.
  - intros (_ & Hne & Hint). parsed Hparse. right_count Hlen.
    apply String.eqb_neq in Hne. rewrite Hne, Hint.
    unfold bind, print, ret. eauto.
  - intros Hbad _ c w2.
    destruct (String.eqb_spec (args !!! 1%nat) "latest") as [_|Hne].
    + intros H. repeat run_step. reflexivity.
    + destruct (PyInt.int (args !!! 1%nat)) eqn:Hint.
      * intros H. repeat run_step. reflexivity.
      * destruct Hbad. by repeat split.
Qed.

(** With operations that do not raise, a command whose parser returned
    the right number of arguments returns. *)
Lemma command_returns P name cmd dests n cmdline w options args w1 :
  dependable P ->
  lookup_command name (COMMANDS P) = Some cmd ->
  signature name = Some (dests, n) ->
  parse_args P dests cmdline w = Return (options, args) w1 ->
  length args = n ->
  exists c w2, cmd cmdline w = Return c w2.
Proof.
  intros (H1 & H2 & H3 & H4 & H5 & H6 & H7 & H8) Hcmd Hsig Hparse Hlen.
  destruct (lookup_command_cases P name cmd Hcmd)
    as [[-> ->]|[[-> ->]|[[-> ->]|[[-> ->]|[[-> ->]|[[-> ->]|[[-> ->]|[-> ->]]]]]]]];
    injection Hsig as <- <-; parsed Hparse; right_count Hlen;
    match goal with
    | |- exists c w2, ?m w1 = Return c w2 =>
        assert (never_raises m) as Hm; [returns|apply Hm]
    end.
Qed.

(** C7: a command given the wrong number of positional arguments returns 2;
    so does [vcurrent] when its selector is neither an integer nor [latest];
    [startsite] returns 1 when the path it is given exists; in every other
    case a command that returns at all (no exception leaves it) returns 0,
    and it does return when the operations it calls do not raise. *)
Theorem exit_codes P name cmd :
  lookup_command name (COMMANDS P) = Some cmd ->
  exists dests n,
    signature name = Some (dests, n) /\
    forall cmdline w options args w1,
      parse_args P dests cmdline w = Return (options, args) w1 ->
      (length args <> n -> exists w2, cmd cmdline w = Return 2 w2) /\
      (length args = n -> bad_selector name args ->
       exists w2, cmd cmdline w = Return 2 w2) /\
      (length args = n -> already_there name args w1 ->
       exists w2, cmd cmdline w = Return 1 w2) /\
      (length args = n -> ~ bad_selector name args ->
       ~ already_there name args w1 ->
       (forall c w2, cmd cmdline w = Return c w2 -> c = 0) /\
       (dependable P -> exists w2, cmd cmdline w = Return 0 w2)).
Proof.
  intros Hcmd.
  destruct (exit_codes_parsed P name cmd Hcmd) as (dests & n & Hsig & Hcodes).
  exists dests, n. split; [done|].
  intros cmdline w options args w1 Hparse.
  destruct (Hcodes cmdline w options args w1 Hparse) as (H2 & Hsel & H1 & H0).
  split; [done|]. split; [done|]. split; [done|].
  intros Hlen Hgood Hnew. split; [by apply H0|].
  intros Hdep.
  destruct (command_returns P name cmd dests n cmdline w options args w1)
    as (c & w2 & Hrun); try done.
  exists w2. by rewrite (H0 Hlen Hgood Hnew c w2 Hrun) in Hrun.
Qed.

Lemma exit_codes_witness :
  (exists w2, vcurrent_cmd stub ["versions"; "newest"] bare = Return 2 w2) /\
  (exists w2, deploy_cmd stub ["out"; "www"] bare = Return 2 w2) /\
  (exists w2, startsite_cmd stub ["in"] site = Return 1 w2) /\
  (exists w2, vgc_cmd stub ["versions"] bare = Return 0 w2).
Proof.
  destruct (exit_codes stub "vcurrent" (vcurrent_cmd stub) eq_refl)
    as (d1 & n1 & Hsig1 & Hvcurrent).
  destruct (exit_codes stub "deploy" (deploy_cmd stub) eq_refl)
    as (d2 & n2 & Hsig2 & Hdeploy).
  destruct (exit_codes stub "startsite" (startsite_cmd stub) eq_refl)
    as (d3 & n3 & Hsig3 & Hstartsite).
  destruct (exit_codes stub "vgc" (vgc_cmd stub) eq_refl)
    as (d4 & n4 & Hsig4 & Hvgc).
  injection Hsig1 as <- <-. injection Hsig2 as <- <-.
  injection Hsig3 as <- <-. injection Hsig4 as <- <-.
  destruct (Hvcurrent ["versions"; "newest"] bare _ _ _ eq_refl)
    as (_ & Hsel & _ & _).
  destruct (Hdeploy ["out"; "www"] bare _ _ _ eq_refl)
    as (Hcount & _ & _ & _).
  destruct (Hstartsite ["in"] site _ _ _ eq_refl) as (_ & _ & Hthere & _).
  destruct (Hvgc ["versions"] bare _ _ _ eq_refl) as (_ & _ & _ & Hzero).
  split; [|split; [|split]].
  - apply Hsel; [reflexivity|].
    split; [reflexivity|]. split; [|reflexivity].
    intros H. vm_compute in H. discriminate.
  - apply Hcount. cbn. discriminate.
  - apply Hthere; [reflexivity|].
    split; [reflexivity|]. right. set_solver.
  - apply Hzero; [reflexivity|intros [H _]; discriminate..|].
    repeat split; intros; intros w; eexists _, _; reflexivity.
Defined.

(** ** The selector of [vcurrent] *)

Lemma vcurrent_cmd_selected P cmdline w options dir selector w1 :
  parse_args P ["deploy_dir"] cmdline w
    = Return (options, [dir; selector]) w1 ->
  vcurrent_cmd P cmdline w =
  match (if String.eqb selector "latest" then Some 0
         else PyInt.int selector) with
  | Some version => change_current P options dir version w1
  | None =>
      (exec print ("Version must be an integer, or "
                   +:+ dquote +:+ "latest" +:+ dquote);
       ret 2) w1
  end.
Proof.
  intros H. unfold vcurrent_cmd. unfold bind at 1. rewrite H.
  cbv beta iota. cbn [length Nat.eqb negb].
  change ([dir; selector] !!! 1%nat) with selector.
  change ([dir; selector] !!! 0%nat) with dir.
  by destruct (if String.eqb selector "latest" then _ else _).
Qed.

(** C10: [vcurrent] turns the selector [latest] into the integer 0 and any
    other selector into the integer it parses to; the selector [0] parses
    to 0, so both hand the same version, 0, to [ChangeCurrent], and from
    the same state the two invocations run alike. *)
Theorem vcurrent_zero_is_latest P w options dir w1 line_latest line_zero :
  parse_args P ["deploy_dir"] line_latest w
    = Return (options, [dir; "latest"]) w1 ->
  parse_args P ["deploy_dir"] line_zero w
    = Return (options, [dir; "0"]) w1 ->
  vcurrent_cmd P line_latest w = change_current P options dir 0 w1 /\
  vcurrent_cmd P line_zero w = change_current P options dir 0 w1 /\
  vcurrent_cmd P line_zero w = vcurrent_cmd P line_latest w /\
  PyInt.int "0" = Some 0 /\
  (forall line selector z,
     parse_args P ["deploy_dir"] line w
       = Return (options, [dir; selector]) w1 ->
     selector <> "latest"%string ->
     PyInt.int selector = Some z ->
     vcurrent_cmd P line w = change_current P options dir z w1).
Proof.
  intros Hlatest Hzero.
  rewrite (vcurrent_cmd_selected _ _ _ _ _ _ _ Hlatest).
  rewrite (vcurrent_cmd_selected _ _ _ _ _ _ _ Hzero).
  repeat split.
  intros line selector z Hline Hne Hint.
  rewrite (vcurrent_cmd_selected _ _ _ _ _ _ _ Hline).
  apply String.eqb_neq in Hne. by rewrite Hne, Hint.
Qed.

Lemma vcurrent_zero_is_latest_witness :
  vcurrent_cmd stub ["versions"; "0"] bare
    = vcurrent_cmd stub ["versions"; "latest"] bare /\
  vcurrent_cmd stub ["versions"; "latest"] bare
    = change_current stub
        {| deploy_dir := None; embed_pyweb := VNone; manifest := None |}
        "versions" 0 bare.
Proof.
  pose proof (vcurrent_zero_is_latest stub bare _ "versions" bare
                ["versions"; "latest"] ["versions"; "0"]
                eq_refl eq_refl) as (Hl & _ & Heq & _).
  split; [exact Heq | exact Hl].
Defined.

(** * Further properties of the two files *)

(** ** [GetProcessors] and [ListProcessors] *)

Lemma loop_done_ready w processors classes :
  Forall2 (fun n C => PROCESSORS !! n = Some C /\ importable w C = true)
          processors classes ->
  forallb registered processors = true /\
  forallb (ready w) processors = true /\
  length classes = length processors.
Proof.
  induction 1 as [|n C names classes [Hn Hi] _ (IH1 & IH2 & IH3)]; [done|].
  cbn. rewrite IH1, IH2, IH3, (registered_Some _ _ Hn), (ready_Some _ _ _ Hn), Hi.
  done.
Qed.

Lemma PROCESSORS_renderers n C :
  PROCESSORS !! n = Some C -> renderer C = true.
Proof.
  unfold PROCESSORS. rewrite !lookup_insert, lookup_empty.
  repeat case_decide; by intros [= <-].
Qed.

(** X1: [GetProcessors] returns a pipeline exactly when every name is
    registered and the class of every name can be constructed. The pipeline
    is then an ignore processor, a copy processor, and between them one
    renderer per name, each as new: no name puts a second ignore or copy
    processor into it. *)
Theorem GetProcessors_returns_iff processors w :
  ((exists pipeline w', GetProcessors processors w = Return pipeline w') <->
   forallb registered processors = true /\
   forallb (ready w) processors = true) /\
  (forall pipeline w',
     GetProcessors processors w = Return pipeline w' ->
     exists objs,
       pipeline = [fresh IgnoreProtectedFileProcessor] ++ objs
                  ++ [fresh CopyFileProcessor] /\
       length objs = length processors /\
       Forall (fun p => renderer (cls p) = true /\ p = fresh (cls p)) objs).
Proof.
  rewrite GetProcessors_unfold.
  destruct (GetProcessors_loop_end processors [] w)
    as [classes HF | pre n post -> _ Hn | pre n post C e -> _ Hn Hi He].
  - destruct (loop_done_ready _ _ _ HF) as (Hreg & Hready & Hlen).
    split; [split; [done|eauto]|].
    intros pipeline w' [= <- _]. exists (fresh <$> classes).
    split; [done|]. split; [by rewrite length_fmap|].
    apply Forall_fmap, Forall_forall. intros C HC. split; [|done].
    apply list_elem_of_lookup in HC as [i Hi].
    destruct (Forall2_lookup_r _ _ _ _ _ HF Hi) as (n & _ & Hn & _).
    by eapply PROCESSORS_renderers.
  - split; [|done]. split; [intros (? & ? & ?); done|].
    intros [Hreg _]. apply forallb_middle in Hreg.
    apply registered_None in Hn. congruence.
  - split; [|done]. split; [intros (? & ? & ?); done|].
    intros [_ Hready]. apply forallb_middle in Hready.
    rewrite (ready_Some _ _ _ Hn) in Hready. congruence.
Qed.

Lemma GetProcessors_returns_iff_witness :
  exists objs,
    [fresh IgnoreProtectedFileProcessor; fresh HtmlJinjaProcessor;
     fresh CopyFileProcessor]
      = [fresh IgnoreProtectedFileProcessor] ++ objs
        ++ [fresh CopyFileProcessor] /\
    length objs = 1%nat.
Proof.
  destruct (GetProcessors_returns_iff ["HtmlJinja"] equipped) as [_ Hshape].
  destruct (Hshape [fresh IgnoreProtectedFileProcessor;
                    fresh HtmlJinjaProcessor; fresh CopyFileProcessor]
                   equipped) as (objs & Heq & Hlen & _).
  - vm_compute. reflexivity.
  - by exists objs.
Defined.

Lemma GetProcessors_loop_app pre rest w :
  forallb registered pre = true ->
  forallb (ready w) pre = true ->
  forall acc, exists objs,
    length objs = length pre /\
    GetProcessors_loop (pre ++ rest) acc w
      = GetProcessors_loop rest (acc ++ objs) w.
Proof.
  induction pre as [|n pre IH]; intros Hreg Hready acc.
  - exists []. by rewrite app_nil_r.
  - cbn in Hreg, Hready.
    apply andb_prop in Hreg as [Hn Hreg]. apply andb_prop in Hready as [Hr Hready].
    unfold registered in Hn. apply bool_decide_eq_true in Hn as [C HC].
    rewrite (ready_Some _ _ _ HC) in Hr.
    destruct (IH Hreg Hready (acc ++ [fresh C])) as (objs & Hlen & Heq).
    exists (fresh C :: objs). split; [cbn; by rewrite Hlen|].
    cbn [app GetProcessors_loop]. rewrite HC. unfold bind.
    rewrite (new_importable _ _ Hr). rewrite Heq.
    by rewrite <- app_assoc.
Qed.

(** X2: [GetProcessors] stops at the first name, in the order given, that
    it cannot instantiate, whatever follows it: an unregistered name is
    reported by [UnknownProcessor] carrying that name, a class that cannot be
    constructed by the exception of its constructor. *)
Theorem GetProcessors_first_failure pre n post w :
  forallb registered pre = true ->
  forallb (ready w) pre = true ->
  (registered n = false ->
   GetProcessors (pre ++ n :: post) w = Raise (UnknownProcessor n) w) /\
  (forall C, PROCESSORS !! n = Some C -> importable w C = false ->
   exists e, new C w = Raise e w /\
             GetProcessors (pre ++ n :: post) w = Raise e w).
Proof.
  intros Hreg Hready. rewrite GetProcessors_unfold.
  destruct (GetProcessors_loop_app pre (n :: post) w Hreg Hready [])
    as (objs & _ & ->).
  cbn [GetProcessors_loop]. split.
  - intros Hn. apply registered_None in Hn. by rewrite Hn.
  - intros C HC Hi. rewrite HC. unfold bind.
    destruct (new_cases w C) as [[? _]|[_ [e [He _]]]]; [congruence|].
    exists e. by rewrite He.
Qed.

Lemma GetProcessors_first_failure_witness :
  GetProcessors (["CssYaml"; "HtmlJinja"] ++ "Markdown" :: ["Textile"]) equipped
    = Raise (UnknownProcessor "Markdown") equipped.
Proof.
  apply (GetProcessors_first_failure ["CssYaml"; "HtmlJinja"] "Markdown"
           ["Textile"] equipped); vm_compute; reflexivity.
Defined.

Lemma GetProcessors_known processors w name w' :
  (forall n, n ∈ processors -> registered n = true) ->
  GetProcessors processors w <> Raise (UnknownProcessor name) w'.
Proof.
  intros Hin. rewrite GetProcessors_unfold.
  destruct (GetProcessors_loop_end processors [] w)
    as [classes HF | pre n post Heq _ Hn | pre n post C e Heq _ Hn Hi He];
    [done| |].
  - intros _. assert (n ∈ processors) as Hn' by (rewrite Heq; set_solver).
    apply Hin in Hn'. apply registered_None in Hn. congruence.
  - intros [= -> _].
    destruct (new_cases w C) as [[? _]|[_ [e' [He' HC]]]]; [congruence|].
    rewrite He in He'. injection He' as <-.
    destruct C; try done; destruct HC as [?|[_ ?]]; discriminate.
Qed.

(** X3: the names [ListProcessors] returns are exactly the registered ones,
    each once; so [GetProcessors], given that list, never raises
    [UnknownProcessor]. *)
Theorem ListProcessors_registered :
  (forall name, name ∈ ListProcessors <-> registered name = true) /\
  NoDup ListProcessors /\
  (forall w name w',
     GetProcessors ListProcessors w <> Raise (UnknownProcessor name) w').
Proof.
  assert (Hin : forall name, name ∈ ListProcessors <-> registered name = true).
  { intros name. unfold ListProcessors, registered.
    rewrite bool_decide_eq_true, list_elem_of_fmap. split.
    - intros ([k C] & -> & H). apply elem_of_map_to_list in H. by exists C.
    - intros [C H]. exists (name, C). split; [done|].
      by apply elem_of_map_to_list. }
  split; [done|]. split; [apply NoDup_fst_map_to_list|].
  intros w name w'. apply GetProcessors_known. intros n. apply Hin.
Qed.

(** ** What the renderers accept *)

(** Two endings of one string: one of them ends with the other. *)
Lemma endswith_comparable s a b :
  PyStr.endswith s a = true -> PyStr.endswith s b = true ->
  PyStr.endswith a b = true \/ PyStr.endswith b a = true.
Proof.
  induction s as [|c s IH]; cbn [PyStr.endswith].
  - rewrite !String.eqb_eq. intros -> ->. by left.
  - rewrite !orb_true_iff, !String.eqb_eq. intros [<-|Ha] [<-|Hb].
    + left. cbn [PyStr.endswith]. by rewrite String.eqb_refl.
    + left. cbn [PyStr.endswith]. rewrite Hb. apply orb_true_r.
    + right. cbn [PyStr.endswith]. rewrite Ha. apply orb_true_r.
    + by apply IH.
Qed.

(** X4: no file name is accepted by two renderer classes: the endings
    [.html], [.yaml] and [.css] exclude each other, so at most one of the
    configured renderers answers true to [CanProcessFile], whatever their
    order. *)
Theorem renderers_accept_apart p q filename :
  renderer (cls p) = true -> renderer (cls q) = true ->
  CanProcessFile p filename = true -> CanProcessFile q filename = true ->
  cls p = cls q.
Proof.
  unfold CanProcessFile.
  destruct (cls p), (cls q); try done; intros _ _ Hp Hq;
    destruct (endswith_comparable _ _ _ Hp Hq) as [H|H];
    vm_compute in H; discriminate.
Qed.

Lemma renderers_accept_apart_witness :
  cls started = cls (fresh HtmlJinjaProcessor).
Proof.
  apply (renderers_accept_apart started (fresh HtmlJinjaProcessor)
           "posts/index.html"); reflexivity.
Defined.

(** ** The life cycle of a processor *)




(** X6: [EndProcessing] undoes [StartProcessing]: after a start that
    returned, the end returns too, in the same world, and removes what the
    start had set, so a newly constructed processor is back as new after one
    run and can be started again. *)
Theorem start_then_end self ctx w started w1 :
  StartProcessing self ctx w = (started, Return tt w1) ->
  exists ended,
    EndProcessing started w1 = (ended, Return tt w1) /\
    cls ended = cls self /\
    (renderer (cls self) = true -> _ctx ended = None) /\
    (cls self = HtmlJinjaProcessor \/ cls self = YamlJinjaProcessor ->
     _env ended = None) /\
    (forall C, self = fresh C -> ended = fresh C).
Proof.
  unfold StartProcessing, HtmlJinja_StartProcessing, EndProcessing.
  destruct self as [C c e]. cbn [cls _ctx _env].
  destruct C;
    repeat match goal with
           | |- context [match ?x with _ => _ end] =>
               lazymatch x with
               | bind _ _ _ => destruct x eqn:?
               | _ !! _ => destruct x eqn:?
               end
           end;
    intros [= <- <-] || intros [= <- _] || intros H; try discriminate;
    cbn [cls _ctx _env];
    (eexists; split; [reflexivity|]; repeat split; try done;
     try (intros [?|?]; discriminate); intros C' [= -> -> ->]; reflexivity).
Qed.

Lemma start_then_end_witness :
  exists ended,
    EndProcessing started site = (ended, Return tt site) /\
    ended = fresh HtmlJinjaProcessor.
Proof.
  destruct (start_then_end (fresh HtmlJinjaProcessor)
              {[ "input_root" := VStr "in" ]} site started site)
    as (ended & Hrun & _ & _ & _ & Hfresh).
  - vm_compute. reflexivity.
  - exists ended. split; [exact Hrun|]. by apply Hfresh.
Defined.

(** X7: [EndProcessing] needs a [StartProcessing] before it. On a renderer
    that was just constructed, and on one that was already ended, it raises
    [AttributeError] and leaves the object as it was; on the two internal
    processors it always returns and changes nothing. *)
Theorem end_needs_start self w :
  (renderer (cls self) = true ->
   (forall ended w1,
      EndProcessing self w = (ended, Return tt w1) ->
      exists attr,
        EndProcessing ended w1 = (ended, Raise (AttributeError attr) w1)) /\
   exists attr,
     EndProcessing (fresh (cls self)) w
       = (fresh (cls self), Raise (AttributeError attr) w)) /\
  (renderer (cls self) = false ->
   EndProcessing self w = (self, Return tt w)).
Proof.
  unfold EndProcessing. destruct self as [C c e]. cbn [cls _ctx _env].
  split.
  - intros HC. split.
    + intros ended w1.
      destruct C, c, e; try discriminate HC; cbn [cls _ctx _env];
        intros [= <- <-]; cbn [cls _ctx _env]; eauto.
    + destruct C; try discriminate HC; cbn; eauto.
  - intros HC. by destruct C.
Qed.

Lemma end_needs_start_witness :
  (exists attr,
     EndProcessing (fresh CssYamlProcessor) bare
       = (fresh CssYamlProcessor, Raise (AttributeError attr) bare)) /\
  EndProcessing (fresh CopyFileProcessor) bare
    = (fresh CopyFileProcessor, Return tt bare).
Proof.
  split.
  - apply (end_needs_start (fresh CssYamlProcessor) bare). reflexivity.
  - apply (end_needs_start (fresh CopyFileProcessor) bare). reflexivity.
Defined.

(** X8: the [ProcessFile] of a renderer needs a [StartProcessing] before
    it: while the object has no [_ctx] (or, for the Jinja classes, no
    [_env]) the call never returns a value; it ends in an exception. *)
Theorem ProcessFile_needs_start K self in_path out_path w :
  renderer (cls self) = true ->
  _ctx self = None \/
  (cls self <> CssYamlProcessor /\ _env self = None) ->
  exists e w', ProcessFile K self in_path out_path w = Raise e w'.
Proof.
  intros HC Hattr.
  destruct (ProcessFile K self in_path out_path w) as [v w'|e w'] eqn:H;
    [exfalso|eauto].
  unfold ProcessFile in H.
  destruct (cls self); try discriminate HC;
    unfold HtmlJinja_ProcessFile, YamlJinja_ProcessFile, CssYaml_ProcessFile
      in H;
    destruct Hattr as [Hctx|[Hcss Henv]]; try done;
    try rewrite Hctx in H; try rewrite Henv in H;
    repeat run_step;
    match goal with
    | E : getattr _ None _ = Return _ _ |- _ => discriminate E
    end.
Qed.

Lemma ProcessFile_needs_start_witness :
  exists e w',
    ProcessFile plain (fresh HtmlJinjaProcessor)
                "in/index.html" "out/index.html" site = Raise e w'.
Proof.
  apply (ProcessFile_needs_start plain (fresh HtmlJinjaProcessor)
           "in/index.html" "out/index.html" site).
  - reflexivity.
  - left. reflexivity.
Defined.

(** ** The context of a YAML page *)

Lemma update_all_snoc ctx docs doc :
  update_all ctx (docs ++ [doc]) = doc ∪ update_all ctx docs.
Proof. unfold update_all. by rewrite foldl_app. Qed.

Lemma update_all_absent key docs :
  forall ctx,
    Forall (fun doc : gmap string value => doc !! key = None) docs ->
    update_all ctx docs !! key = ctx !! key.
Proof.
  unfold update_all.
  induction docs as [|doc docs IH]; intros ctx Hdocs; [done|].
  apply Forall_cons in Hdocs as [Hdoc Hdocs]. cbn.
  rewrite IH by done. by apply lookup_union_r.
Qed.

(** X9: the documents of a YAML file are laid over the run's context one
    after the other: a key takes its value from the last document that
    defines it, and from the context when no document does. *)
Theorem update_all_last_wins ctx docs doc key :
  update_all ctx (docs ++ [doc]) !! key =
    match doc !! key with
    | Some v => Some v
    | None => update_all ctx docs !! key
    end /\
  (Forall (fun d : gmap string value => d !! key = None) docs ->
   update_all ctx docs !! key = ctx !! key).
Proof.
  split; [|apply update_all_absent].
  rewrite update_all_snoc.
  destruct (doc !! key) as [v|] eqn:Hdoc.
  - by apply lookup_union_Some_l.
  - by apply lookup_union_r.
Qed.

Lemma update_all_last_wins_witness :
  update_all {[ "title" := VStr "pyweb" ]}
             [ {[ "layout" := VStr "_page.html" ]}; ∅ ] !! "title"
    = ({[ "title" := VStr "pyweb" ]} : gmap string value) !! "title".
Proof.
  apply (update_all_last_wins {[ "title" := VStr "pyweb" ]}
           [ {[ "layout" := VStr "_page.html" ]}; ∅ ] ∅ "title").
  repeat constructor.
Defined.

(** X10: a key the page needs and nobody defines is a [KeyError] raised
    after the input was read and before anything is rendered or written:
    [layout] for [YamlJinjaProcessor], when neither the context nor any
    document of the file defines it; [timestamp] for [CssYamlProcessor],
    when the context lacks it. *)
Theorem ProcessFile_missing_key K self in_path out_path w :
  (forall env ctx text docs w1 w2,
     cls self = YamlJinjaProcessor ->
     "yaml" ∈ modules w ->
     _env self = Some env -> _ctx self = Some ctx ->
     ReadFileContent K in_path w = Return text w1 ->
     load_all K text w1 = Return docs w2 ->
     ctx !! "layout" = None ->
     Forall (fun d : gmap string value => d !! "layout" = None) docs ->
     ProcessFile K self in_path out_path w = Raise (KeyError "layout") w2) /\
  (forall ctx text w1,
     cls self = CssYamlProcessor ->
     "cssyaml" ∈ modules w ->
     _ctx self = Some ctx ->
     ReadFileContent K in_path w = Return text w1 ->
     ctx !! "timestamp" = None ->
     ProcessFile K self in_path out_path w = Raise (KeyError "timestamp") w1).
Proof.
  split.
  - intros env ctx text docs w1 w2 Hcls Hyaml Henv Hctx Hread Hload Hc Hdocs.
    unfold ProcessFile, YamlJinja_ProcessFile, bind, getitem. rewrite Hcls.
    rewrite import_found by done. rewrite Hctx. cbn.
    rewrite Hread, Hload, Henv. cbn.
    by rewrite (update_all_absent "layout" docs ctx Hdocs), Hc.
  - intros ctx text w1 Hcls Hcss Hctx Hread Hts.
    unfold ProcessFile, CssYaml_ProcessFile, bind, getitem. rewrite Hcls.
    rewrite import_found by done. rewrite Hread, Hctx. cbn.
    by rewrite Hts.
Qed.

Lemma ProcessFile_missing_key_witness :
  ProcessFile plain
    {| cls := CssYamlProcessor; _ctx := Some ∅; _env := None |}
    "in/index.html" "out/index.css" site
    = Raise (KeyError "timestamp") site.
Proof.
  destruct (ProcessFile_missing_key plain
              {| cls := CssYamlProcessor; _ctx := Some ∅; _env := None |}
              "in/index.html" "out/index.css" site) as [_ Hcss].
  apply (Hcss ∅ "<h1>pyweb</h1>"%string site); reflexivity.
Defined.

(** ** The output name of a YAML page *)

Lemma replace_head r d t :
  PyStr.replace_from ".yaml" ".html" 0 r = String d t ->
  d <> "."%char ->
  exists r', r = String d r' /\ t = PyStr.replace_from ".yaml" ".html" 0 r'.
Proof.
  destruct r as [|d0 r']; cbn [PyStr.replace_from]; [discriminate|].
  destruct (String.prefix ".yaml" (String d0 r')).
  - rewrite append_cons. intros [= <- _] Hd. done.
  - intros [= -> <-] _. eauto.
Qed.

Lemma prefix_yaml_replaced c r :
  String.prefix ".yaml" (String c (PyStr.replace_from ".yaml" ".html" 0 r))
    = true ->
  String.prefix ".yaml" (String c r) = true.
Proof.
  intros H.
  apply (startswith_spec (String c _) ".yaml") in H as [t H].
  rewrite append_cons in H. injection H as -> H.
  apply replace_head in H as (r1 & -> & H); [|discriminate].
  symmetry in H. apply replace_head in H as (r2 & -> & H); [|discriminate].
  symmetry in H. apply replace_head in H as (r3 & -> & H); [|discriminate].
  symmetry in H. apply replace_head in H as (r4 & -> & H); [|discriminate].
  apply (startswith_spec (".yaml" +:+ r4) ".yaml"). by exists r4.
Qed.

Lemma replace_leaves_no_yaml s :
  forall skip,
    PyStr.occurs ".yaml" (PyStr.replace_from ".yaml" ".html" skip s) = false.
Proof.
  induction s as [|c r IH]; intros skip; [done|].
  destruct skip as [|k]; cbn [PyStr.replace_from]; [|apply IH].
  destruct (String.prefix ".yaml" (String c r)) eqn:Hp.
  - rewrite !append_cons, append_nil_l.
    cbn -[PyStr.replace_from]. apply IH.
  - cbn [PyStr.occurs]. rewrite IH, orb_false_r.
    apply not_true_is_false. intros H.
    apply prefix_yaml_replaced in H. congruence.
Qed.

Lemma replace_absent old new s :
  PyStr.occurs old s = false -> PyStr.replace_from old new 0 s = s.
Proof.
  induction s as [|c r IH]; [done|].
  cbn [PyStr.occurs PyStr.replace_from].
  intros [Hp Hr]%orb_false_iff. rewrite Hp. by rewrite IH.
Qed.

Lemma endswith_occurs s p :
  PyStr.endswith s p = true -> PyStr.occurs p s = true.
Proof.
  induction s as [|c r IH]; cbn [PyStr.endswith PyStr.occurs].
  - rewrite String.eqb_eq. by intros ->.
  - rewrite orb_true_iff, String.eqb_eq. intros [<-|H].
    + apply orb_true_iff. left.
      apply (startswith_spec (String c r) (String c r)). exists EmptyString.
      by rewrite append_nil_r.
    + rewrite (IH H). apply orb_true_r.
Qed.

(** X11: the name [YamlJinjaProcessor] computes for its output holds no
    [.yaml] any more. So renaming a second time changes nothing, and the
    output of a YAML page is never itself taken for a YAML page. *)
Theorem YamlJinja_rename_leaves_no_yaml in_path :
  let out := YamlJinja_OutputFileRename in_path in
  PyStr.occurs ".yaml" out = false /\
  YamlJinja_OutputFileRename out = out /\
  CanProcessFile (fresh YamlJinjaProcessor) out = false.
Proof.
  assert (H : PyStr.occurs ".yaml" (YamlJinja_OutputFileRename in_path) = false)
    by apply replace_leaves_no_yaml.
  cbv zeta. split; [done|]. split.
  - by apply replace_absent.
  - apply not_true_is_false. intros Hend. apply endswith_occurs in Hend.
    congruence.
Qed.

(** ** Copying *)



(** ** The commands *)

(** X13: a command that turns its arguments down calls no operation of the
    package: after a wrong number of arguments, a selector [vcurrent]
    cannot read, or a [startsite] path that exists, the world is the one
    the parser left, with the usage help or one message printed. *)
Theorem rejections_do_nothing P name cmd :
  lookup_command name (COMMANDS P) = Some cmd ->
  exists dests n,
    signature name = Some (dests, n) /\
    forall cmdline w options args w1,
      parse_args P dests cmdline w = Return (options, args) w1 ->
      (length args <> n ->
       exists usage, cmd cmdline w = Return 2 (printed w1 (Help usage))) /\
      (length args = n -> bad_selector name args ->
       exists msg, cmd cmdline w = Return 2 (printed w1 (Line msg))) /\
      (length args = n -> already_there name args w1 ->
       exists msg, cmd cmdline w = Return 1 (printed w1 (Line msg))).
Proof.
  intros Hcmd.
  destruct (lookup_command_cases P name cmd Hcmd)
    as [[-> ->]|[[-> ->]|[[-> ->]|[[-> ->]|[[-> ->]|[[-> ->]|[[-> ->]|[-> ->]]]]]]]];
    (eexists _, _; split; [reflexivity|]);
    intros cmdline w options args w1 Hparse;
    (split; [intros Hlen; parsed Hparse;
             match goal with
             | |- context [Nat.eqb ?a ?b] =>
                 destruct (Nat.eqb_spec a b) as [?|_]; [by destruct Hlen|];
                 eexists; reflexivity
             end|
     split; [intros Hlen; try other_name|intros Hlen; try other_name]]).
  - intros [_ Hex]. parsed Hparse. right_count Hlen.
    unfold bind at 1. rewrite path_exists_Return.
    assert (bool_decide (is_Some (files w1 !! (args !!! 0%nat)))
            || bool_decide (args !!! 0%nat ∈ dirs w1) = true) as ->.
    { apply orb_true_iff.
      destruct Hex; [left|right]; by apply bool_decide_eq_true. }
    eexists. reflexivity.
  - intros (_ & Hne & Hint). parsed Hparse. right_count Hlen.
    apply String.eqb_neq in Hne. rewrite Hne, Hint.
    eexists. reflexivity.
Qed.

Lemma rejections_do_nothing_witness :
  exists usage,
    undeploy_cmd stub ["out"] site = Return 2 (printed site (Help usage)).
Proof.
  destruct (rejections_do_nothing stub "undeploy" (undeploy_cmd stub) eq_refl)
    as (dests & n & Hsig & Hcmd).
  injection Hsig as <- <-.
  destruct (Hcmd ["out"] site _ _ _ eq_refl) as (Hcount & _ & _).
  apply Hcount. cbn. discriminate.
Defined.

Ltac run_command :=
  repeat match goal with
         | H : (let '(_, _) := ?r in _) _ = Return _ _ |- _ =>
             destruct r as [[[? ?] ?] ?] || destruct r
         | H : (if ?b then _ else _) _ = Return _ _ |- _ => destruct b
         | H : match ?l with [] => _ | _ :: _ => _ end _ = Return _ _ |- _ =>
             destruct l
         | H : match ?o with Some _ => _ | None => _ end _ = Return _ _ |- _ =>
             destruct o
         | _ => run_step
         end.

(** Whatever a command returns is one of the three exit codes. *)
Lemma command_exit_range P name cmd cmdline w c w' :
  lookup_command name (COMMANDS P) = Some cmd ->
  cmd cmdline w = Return c w' ->
  c = 0 \/ c = 1 \/ c = 2.
Proof.
  intros Hcmd.
  destruct (lookup_command_cases P name cmd Hcmd)
    as [[-> ->]|[[-> ->]|[[-> ->]|[[-> ->]|[[-> ->]|[[-> ->]|[[-> ->]|[-> ->]]]]]]]];
    unfold startsite_cmd, generate_cmd, vgenerate_cmd, vcurrent_cmd,
           vinfo_cmd, vgc_cmd, deploy_cmd, undeploy_cmd;
    intros H; run_command; auto.
Qed.

(** X14: [main] returns 2, after printing its usage and calling no
    operation, when no command is named or the name is not one of
    [COMMANDS]; otherwise it runs the command of that name on the arguments
    that follow it. Whatever it returns is 0, 1 or 2. *)
Theorem main_dispatch P argv w :
  (forall c w', main P argv w = Return c w' -> c = 0 \/ c = 1 \/ c = 2) /\
  (forall options args w1,
     parse_args P [] argv w = Return (options, args) w1 ->
     match args with
     | [] => exists usage, main P argv w = Return 2 (printed w1 (Help usage))
     | name :: rest =>
         match lookup_command name (COMMANDS P) with
         | Some cmd => main P argv w = cmd rest w1
         | None =>
             exists msg usage,
               main P argv w
                 = Return 2 (printed (printed w1 (Line msg)) (Help usage))
         end
     end).
Proof.
  split.
  - intros c w'. unfold main. intros H. run_step.
    destruct a as [options args]. destruct args as [|name rest].
    + cbn [length Nat.ltb Nat.leb] in H. run_command. auto.
    + cbn [length Nat.ltb Nat.leb] in H.
      change ((name :: rest) !!! 0%nat) with name in H.
      destruct (lookup_command name (COMMANDS P)) as [cmd|] eqn:Hcmd.
      * by eapply command_exit_range.
      * run_command. auto.
  - intros options args w1 Hparse.
    destruct args as [|name rest];
      [|destruct (lookup_command name (COMMANDS P)) as [cmd|] eqn:Hcmd];
      try (eexists _, _) || (try eexists);
      unfold main; unfold bind at 1; rewrite Hparse; cbv beta iota;
      cbn [length Nat.ltb Nat.leb];
      try change ((name :: rest) !!! 0%nat) with name;
      try rewrite Hcmd; reflexivity.
Qed.

Lemma main_dispatch_witness :
  main stub ["vinfo"; "versions"] bare = vinfo_cmd stub ["versions"] bare.
Proof.
  destruct (main_dispatch stub ["vinfo"; "versions"] bare) as [_ Hrun].
  exact (Hrun _ ["vinfo"; "versions"] bare eq_refl).
Defined.

(** ** Names and directories *)

Lemma contains_app c a b :
  PyStr.contains c (a +:+ b) = PyStr.contains c a || PyStr.contains c b.
Proof.
  induction a as [|d a IH]; [done|].
  rewrite append_cons. cbn [PyStr.contains]. by rewrite IH, orb_assoc.
Qed.

Lemma endswith_suffix_of_name dir name p :
  dir = EmptyString \/ PyStr.endswith dir "/" = true ->
  PyStr.contains "/" p = false ->
  PyStr.endswith (dir +:+ name) p = PyStr.endswith name p.
Proof.
  intros Hdir Hp. induction dir as [|c d IH]; [done|].
  destruct Hdir as [|Hdir]; [done|].
  rewrite append_cons. cbn [PyStr.endswith] in *.
  apply orb_true_iff in Hdir as [Hone|Hd].
  - apply String.eqb_eq in Hone. injection Hone as -> ->.
    rewrite append_nil_l.
    destruct (String.eqb_spec (String "/" name) p) as [<-|_]; [|done].
    cbn in Hp. discriminate.
  - rewrite IH by auto.
    destruct (String.eqb_spec (String c (d +:+ name)) p) as [<-|_]; [|done].
    apply endswith_spec in Hd as [r ->].
    cbn [PyStr.contains] in Hp. rewrite !contains_app in Hp. cbn in Hp.
    rewrite !orb_true_r in Hp. discriminate.
Qed.

(** X15: every processor decides on the last component of the path alone:
    [CanProcessFile] gives a name the same answer whatever directory part
    precedes it. *)
Theorem CanProcessFile_last_component self dir name :
  PyStr.contains "/" name = false ->
  dir = EmptyString \/ PyStr.endswith dir "/" = true ->
  CanProcessFile self (dir +:+ name) = CanProcessFile self name.
Proof.
  intros Hname Hdir. unfold CanProcessFile.
  destruct (cls self); try (by apply endswith_suffix_of_name); [|done].
  rewrite Ignore_CanProcessFile_basename by done.
  rewrite <- (append_nil_l name) at 4.
  rewrite Ignore_CanProcessFile_basename; auto.
Qed.

Lemma CanProcessFile_last_component_witness :
  CanProcessFile (fresh CssYamlProcessor) ("static/css/" +:+ "site.css")
    = CanProcessFile (fresh CssYamlProcessor) "site.css".
Proof.
  apply (CanProcessFile_last_component (fresh CssYamlProcessor)
           "static/css/" "site.css"); [reflexivity|].
  right. reflexivity.
Defined.

(** ** Listings *)

Lemma print_lines_printed lines :
  forall w, print_lines lines w = Return tt (printed_lines w lines).
Proof.
  induction lines as [|l lines IH]; intros w; cbn [print_lines].
  - unfold ret, printed_lines. cbn. rewrite app_nil_r. by destruct w.
  - unfold bind, print. rewrite IH. unfold printed_lines. cbn.
    by rewrite <- app_assoc.
Qed.

Lemma vinfo_lines_lookup versions current :
  forall i k ts,
    versions !! k = Some ts ->
    vinfo_lines i versions current !! k =
      Some (if bool_decide (Some ts = current)
            then "  " +:+ fmt_2d (i + k) +:+ ". " +:+ ts +:+ " (current)"
            else "  " +:+ fmt_2d (i + k) +:+ ". " +:+ ts).
Proof.
  induction versions as [|v versions IH]; intros i k ts Hk; [done|].
  destruct k as [|k]; cbn [vinfo_lines].
  - injection Hk as ->. by rewrite Nat.add_0_r.
  - cbn in Hk. cbn [lookup list_lookup].
    rewrite <- Nat.add_succ_comm. by apply IH.
Qed.

Lemma vinfo_lines_length versions current :
  forall i, length (vinfo_lines i versions current) = length versions.
Proof.
  induction versions as [|v versions IH]; intros i; [done|].
  cbn. by rewrite IH.
Qed.

(** X16: [vinfo] returns 0 and only prints. With no version it prints one
    sentence saying so; otherwise a heading and one line per version, in
    the order [Versions] gave them, the line of the version at position [k]
    carrying the number [k] and the version, and the mark [(current)] when
    the version is the current one. *)
Theorem vinfo_listing P cmdline w options dir versions current w1 w2 :
  parse_args P [] cmdline w = Return (options, [dir]) w1 ->
  Versions P dir w1 = Return (versions, current) w2 ->
  (versions = [] ->
   vinfo_cmd P cmdline w
     = Return 0 (printed w2 (Line "No website versions."))) /\
  (versions <> [] ->
   exists lines,
     vinfo_cmd P cmdline w
       = Return 0 (printed_lines (printed w2 (Line "Versions:")) lines) /\
     length lines = length versions /\
     forall k ts,
       versions !! k = Some ts ->
       lines !! k =
         Some (if bool_decide (Some ts = current)
               then "  " +:+ fmt_2d k +:+ ". " +:+ ts +:+ " (current)"
               else "  " +:+ fmt_2d k +:+ ". " +:+ ts)).
Proof.
  intros Hparse Hversions.
  assert (Hrun : vinfo_cmd P cmdline w =
                 match versions with
                 | [] => (exec print "No website versions."; ret 0) w2
                 | _ =>
                     (exec print "Versions:";
                      exec print_lines (vinfo_lines 0 versions current);
                      ret 0) w2
                 end).
  { unfold vinfo_cmd. unfold bind at 1. rewrite Hparse. cbv beta iota.
    cbn [length Nat.eqb negb]. change ([dir] !!! 0%nat) with dir.
    unfold bind at 1. rewrite Hversions. by destruct versions. }
  split.
  - intros ->. by rewrite Hrun.
  - intros Hne. exists (vinfo_lines 0 versions current).
    split; [|split].
    + rewrite Hrun. destruct versions; [done|].
      unfold bind, print. by rewrite print_lines_printed.
    + apply vinfo_lines_length.
    + intros k ts Hk. by rewrite (vinfo_lines_lookup _ _ 0 k ts Hk).
Qed.

Lemma vinfo_listing_witness :
  vinfo_cmd stub ["versions"] bare
    = Return 0 (printed bare (Line "No website versions.")).
Proof.
  apply (vinfo_listing stub ["versions"] bare
           {| deploy_dir := None; embed_pyweb := VNone; manifest := None |}
           "versions" [] None bare bare);
    reflexivity.
Defined.

(** ** Missing engines *)

(** X17: the constructors of the two Jinja classes report
    [MissingPythonModule] for [jinja2] whenever [jinja2] or
    [jinja2_markdown.filters] cannot be found, also when the latter alone is
    missing; [YamlJinjaProcessor] reports [yaml] only once both were found. *)
Theorem Jinja_constructor_reports C w :
  C = HtmlJinjaProcessor \/ C = YamlJinjaProcessor ->
  (importable w HtmlJinjaProcessor = false ->
   new C w = Raise (MissingPythonModule "jinja2") w) /\
  (importable w HtmlJinjaProcessor = true -> "yaml" ∉ modules w ->
   new YamlJinjaProcessor w = Raise (MissingPythonModule "yaml") w).
Proof.
  intros HC. split.
  - intros Hi.
    assert (HtmlJinja_init w = Raise (MissingPythonModule "jinja2") w) as Hinit.
    { destruct (new_cases w HtmlJinjaProcessor) as [[? _]|[_ [e [He ->]]]];
        [congruence|].
      unfold new, bind, __init__ in He.
      by destruct (HtmlJinja_init w) as [[] ?|]; [|injection He as -> ->]. }
    destruct HC as [-> | ->]; unfold new, bind, __init__, YamlJinja_init, bind;
      by rewrite Hinit.
  - intros Hi Hyaml.
    destruct (new_cases w YamlJinjaProcessor) as [[Hy _]|[_ [e [He Hshape]]]].
    + exfalso. apply Hyaml.
      apply (importable_elem w YamlJinjaProcessor); [done|].
      do 2 apply list_elem_of_further. apply list_elem_of_here.
    + destruct Hshape as [->|[_ ->]]; [|done].
      exfalso. unfold new, bind, __init__, YamlJinja_init in He.
      unfold bind in He.
      pose proof (new_importable w HtmlJinjaProcessor Hi) as Hn.
      unfold new, bind, __init__ in Hn.
      destruct (HtmlJinja_init w) as [[] w0|]; [|discriminate].
      injection Hn as ->.
      unfold try_except_ImportError, import in He.
      case_decide; discriminate.
Qed.

Lemma Jinja_constructor_reports_witness :
  new YamlJinjaProcessor
      {| modules := {[ "jinja2"; "yaml" ]}; files := ∅; dirs := ∅;
         stdout := [] |}
    = Raise (MissingPythonModule "jinja2")
        {| modules := {[ "jinja2"; "yaml" ]}; files := ∅; dirs := ∅;
           stdout := [] |}.
Proof.
  apply (Jinja_constructor_reports YamlJinjaProcessor
           {| modules := {[ "jinja2"; "yaml" ]}; files := ∅; dirs := ∅;
              stdout := [] |}).
  - by right.
  - vm_compute. reflexivity.
Defined.


